(** * Zenith overlay: the intelligence HUD and the foreground-window poller

    A shallow embedding of [app/components/IntelligenceHUD.tsx] (the display
    layer) and of [createWindow] in the Electron main process (the host
    shell), followed by the properties of the specification that concern
    them.

    Conventions of the embedding.
    - JavaScript strings are [string]s.  [toLowerCase] lowers the ASCII
      letters [A]-[Z] and leaves every other character alone; owner names
      are read as ASCII text.
    - A JavaScript property that may be [undefined] is an [option].
    - JavaScript numbers are rationals [Q]; the rounding of one floating
      point operation is a function [fl : Q -> Q] passed to the definitions
      that compute, so that statements hold whatever the rounding is.
    - [Math.random()] is an input of the step that calls it.
    - React state is a record; the effects of a handler on the outside
      world (messages sent, console lines) are returned as lists.
    - Code that may throw returns a [Completion]: a value, or the error
      thrown. *)

From Stdlib Require Import Bool List String Ascii NArith ZArith QArith Qminmax Lia Lqa.
Import ListNotations.

Open Scope string_scope.

(** ** JavaScript string methods used by the component *)

Module JsString.

(** One character of [String.prototype.toLowerCase], ASCII range. *)
Definition lower_ascii (c : ascii) : ascii :=
  let n := N_of_ascii c in
  if ((65 <=? n) && (n <=? 90))%N then ascii_of_N (n + 32) else c.

Fixpoint toLowerCase (s : string) : string :=
  match s with
  | EmptyString => EmptyString
  | String c rest => String (lower_ascii c) (toLowerCase rest)
  end.

(** [includes s t] is [s.includes(t)]: [t] occurs in [s] as a contiguous
    run of characters, at some position. *)
Fixpoint includes (s t : string) : bool :=
  prefix t s ||
  match s with
  | EmptyString => false
  | String _ rest => includes rest t
  end.

(** Truthiness of a string-valued property that may be undefined: only
    a present, non-empty string is truthy. *)
Definition truthy (v : option string) : bool :=
  match v with
  | Some (String _ _) => true
  | _ => false
  end.

(** [v || d] for such a property and a string default. *)
Definition or_default (v : option string) (d : string) : string :=
  match v with
  | Some (String c rest) => String c rest
  | _ => d
  end.

End JsString.

Import JsString.

(** ** Display layer: [IntelligenceHUD] *)

(** The intent labels, as the strings the component stores. *)
Definition Coding : string := "Coding".
Definition Browsing_Research : string := "Browsing / Research".
Definition Communication : string := "Communication".
Definition Drafting : string := "Drafting".
Definition Calculation : string := "Calculation".
Definition General_Task : string := "General Task".
Definition Idle : string := "Idle".

(** The heuristic of the ['active-window-change'] listener: the chain of
    [if]/[else if] on [appName], returning the argument of [setIntent]. *)
Definition classify (appName : string) : string :=
  if includes (toLowerCase appName) "code" || includes appName "Terminal" then
    Coding
  else if includes (toLowerCase appName) "chrome" || includes appName "browser" then
    Browsing_Research
  else if includes (toLowerCase appName) "slack" || includes appName "whatsapp" then
    Communication
  else if includes (toLowerCase appName) "notepad" || includes appName "text" then
    Drafting
  else if includes (toLowerCase appName) "calc" then
    Calculation
  else
    General_Task.

(** The three [useState] cells. *)
Record HudState := mkHud {
  intent : string;
  appContext : string;
  confidence : Q
}.

Definition initial_state : HudState :=
  {| intent := Idle; appContext := "Detecting..."; confidence := 0 |}.

(** Payload of ['active-window-change'] as the listener sees it. *)
Record WindowChange := mkChange {
  title : option string;
  owner : option string;
  app : option string
}.

(** The listener body: [appName = data.owner || "Unknown"], then
    [setAppContext(appName)] and [setIntent(...)]. *)
Definition on_active_window_change (data : WindowChange) (st : HudState) : HudState :=
  let appName := or_default (owner data) "Unknown" in
  {| intent := classify appName;
     appContext := appName;
     confidence := confidence st |}.

(** The jitter timer: [(Math.random() - 0.5) * 10], each operation
    rounded by [fl]. *)
Definition jitter (fl : Q -> Q) (random : Q) : Q :=
  fl (fl (random - (1 # 2)) * 10).

(** The updater passed to [setConfidence]:
    [Math.min(100, Math.max(80, prev + (Math.random() - 0.5) * 10))]. *)
Definition next_confidence (fl : Q -> Q) (random prev : Q) : Q :=
  Qmin 100 (Qmax 80 (fl (prev + jitter fl random))).

(** Clamping into [[80,100]] as the specification words it: a value below
    the range becomes 80, a value above it becomes 100, a value inside it
    is kept. *)
Definition spec_clamp (x : Q) : Q :=
  if Qlt_le_dec x 80 then 80
  else if Qlt_le_dec 100 x then 100
  else x.

(** Exact arithmetic, for running the definitions. *)
Definition exact (x : Q) : Q := x.

(** *** The component and the host bridge *)

(** How a piece of JavaScript ends: normally, with a value, or by throwing. *)
Inductive Completion (A : Type) :=
| Normal (a : A)
| Throw (error : string).
Arguments Normal {A} a.
Arguments Throw {A} error.

Definition and_then {A B} (c : Completion A) (k : A -> Completion B) : Completion B :=
  match c with
  | Normal a => k a
  | Throw error => Throw error
  end.

(** What the component can see of its surroundings: whether [window]
    exists and whether [window.require] is there. *)
Record Env := mkEnv {
  window_defined : bool;
  window_require : bool
}.

(** The guard [typeof window !== 'undefined' && window.require]. *)
Definition host_bridge (env : Env) : bool :=
  window_defined env && window_require env.

(** The call [window.require('electron')], which throws where there is no
    [window] or no [window.require]. *)
Definition require_electron (env : Env) : Completion unit :=
  if window_defined env then
    if window_require env then Normal tt
    else Throw "TypeError: window.require is not a function"
  else Throw "ReferenceError: window is not defined".

(** A message handed to [ipcRenderer.send]. *)
Record IpcMessage := mkIpc {
  channel : string;
  ignore_arg : bool
}.

(** The mounted component: its state cells, the number of listeners it has
    registered on ['active-window-change'], whether its interval is
    running, and the messages it has sent to the main process, oldest
    first. *)
Record Renderer := mkRenderer {
  hud : HudState;
  listeners : nat;
  interval_running : bool;
  outbox : list IpcMessage
}.

(** First render: the [useState] initial values, nothing registered. *)
Definition first_render : Renderer :=
  {| hud := initial_state; listeners := 0; interval_running := false; outbox := [] |}.

Definition ipcRenderer_send (m : IpcMessage) (r : Renderer) : Renderer :=
  {| hud := hud r; listeners := listeners r;
     interval_running := interval_running r;
     outbox := outbox r ++ [m] |}.

Definition ipcRenderer_on (r : Renderer) : Renderer :=
  {| hud := hud r; listeners := S (listeners r);
     interval_running := interval_running r;
     outbox := outbox r |}.

Definition setInterval (r : Renderer) : Renderer :=
  {| hud := hud r; listeners := listeners r;
     interval_running := true; outbox := outbox r |}.

Definition clearInterval (r : Renderer) : Renderer :=
  {| hud := hud r; listeners := listeners r;
     interval_running := false; outbox := outbox r |}.

Definition setIgnoreMouseEvents (env : Env) (ignore : bool) (r : Renderer)
  : Completion Renderer :=
  if host_bridge env then
    and_then (require_electron env) (fun _ =>
    Normal (ipcRenderer_send (mkIpc "set-ignore-mouse-events" ignore) r))
  else Normal r.

(** The first [useEffect]: start the interval, and subscribe when the
    bridge is there. *)
Definition effect_alive (env : Env) (r : Renderer) : Completion Renderer :=
  let r := setInterval r in
  if host_bridge env then
    and_then (require_electron env) (fun _ => Normal (ipcRenderer_on r))
  else Normal r.

(** The second [useEffect]: force click-through. *)
Definition effect_click_through (env : Env) (r : Renderer) : Completion Renderer :=
  setIgnoreMouseEvents env true r.

Definition mount (env : Env) (r : Renderer) : Completion Renderer :=
  and_then (effect_alive env r) (effect_click_through env).

Definition with_hud (f : HudState -> HudState) (r : Renderer) : Renderer :=
  {| hud := f (hud r); listeners := listeners r;
     interval_running := interval_running r; outbox := outbox r |}.

(** The interval callback: [setConfidence(prev => ...)]. *)
Definition on_interval (fl : Q -> Q) (random : Q) (st : HudState) : HudState :=
  {| intent := intent st; appContext := appContext st;
     confidence := next_confidence fl random (confidence st) |}.

(** Things that happen to the component. *)
Inductive Event :=
| Mount
| ActiveWindowChange (data : WindowChange)
| MouseEnter
| MouseLeave
| IntervalFires (random : Q)
| Unmount.

(** The first render of a new instance of the component: its [useState]
    cells hold the initial values, whatever an earlier instance showed.
    What lives outside the instance stays: the listeners registered on
    [ipcRenderer] and the messages sent. *)
Definition new_instance (r : Renderer) : Renderer :=
  {| hud := initial_state; listeners := listeners r;
     interval_running := interval_running r; outbox := outbox r |}.

(** One event, handled to completion.  Mounting renders a new instance
    and runs its effects; a notification runs every registered listener;
    the interval callback runs only while the interval is set;
    unmounting clears the interval (between an unmount and the next mount
    the cells are those of the unmounted instance, which nothing
    displays). *)
Definition step (fl : Q -> Q) (env : Env) (r : Renderer) (ev : Event)
  : Completion Renderer :=
  match ev with
  | Mount => mount env (new_instance r)
  | ActiveWindowChange data =>
      Normal (with_hud (Nat.iter (listeners r) (on_active_window_change data)) r)
  | MouseEnter => setIgnoreMouseEvents env false r
  | MouseLeave => setIgnoreMouseEvents env true r
  | IntervalFires random =>
      if interval_running r then Normal (with_hud (on_interval fl random) r)
      else Normal r
  | Unmount => Normal (clearInterval r)
  end.

(** A sequence of events; a throw ends it. *)
Fixpoint run (fl : Q -> Q) (env : Env) (r : Renderer) (evs : list Event)
  : Completion Renderer :=
  match evs with
  | [] => Normal r
  | ev :: rest => and_then (step fl env r ev) (fun r' => run fl env r' rest)
  end.

(** ** Host shell: the poller of [createWindow] *)

(** What [active-win] resolves to when it finds a window. *)
Record Owner := mkOwner {
  name : string;
  path : string
}.

Record WinResult := mkResult {
  result_title : string;
  result_owner : Owner
}.

(** How one call [await activeWin()] ends: it resolves, with a result or
    with nothing, or it rejects. *)
Inductive QueryOutcome :=
| Resolved (result : option WinResult)
| Rejected (error : string).

Record BrowserWindow := mkWindow {
  ignoreMouseEvents : bool;
  forward : bool
}.

(** The two variables the timer callback reads: [mainWindow] (null once
    the window is closed) and [activeWin] (undefined until, and unless,
    the module loads). *)
Record Host := mkHost {
  mainWindow : option BrowserWindow;
  activeWin_loaded : bool
}.

(** The window right after [createWindow]. *)
Definition created_window : BrowserWindow :=
  {| ignoreMouseEvents := true; forward := true |}.

(** The ['ipc-message'] handler, on the variable [mainWindow]: a message
    on another channel is ignored; on ['set-ignore-mouse-events'] the
    window is set, and with no window the method call on [null] throws. *)
Definition on_ipc_message (m : IpcMessage) (mw : option BrowserWindow)
  : Completion (option BrowserWindow) :=
  if String.eqb (channel m) "set-ignore-mouse-events" then
    match mw with
    | Some _ => Normal (Some {| ignoreMouseEvents := ignore_arg m; forward := true |})
    | None =>
        Throw "TypeError: Cannot read properties of null (reading 'setIgnoreMouseEvents')"
    end
  else Normal mw.

(** Outside effects of a timer callback: notifications sent to the
    renderer and lines written with [console.error]. *)
Record Effects := mkEffects {
  notifications : list WindowChange;
  console : list string
}.

Definition no_effects : Effects := {| notifications := []; console := [] |}.

(** Code that has effects and may throw. *)
Definition Js (A : Type) : Type := Effects -> Completion A * Effects.

Definition ret {A} (a : A) : Js A := fun e => (Normal a, e).

Definition throw {A} (error : string) : Js A := fun e => (Throw error, e).

Definition bind {A B} (c : Js A) (k : A -> Js B) : Js B :=
  fun e =>
    match c e with
    | (Normal a, e') => k a e'
    | (Throw error, e') => (Throw error, e')
    end.

Notation "x <- c ;; k" := (bind c (fun x => k))
  (at level 61, c at next level, right associativity).

Definition try_catch {A} (body : Js A) (handler : string -> Js A) : Js A :=
  fun e =>
    match body e with
    | (Normal a, e') => (Normal a, e')
    | (Throw error, e') => handler error e'
    end.

Definition console_error (line : string) : Js unit :=
  fun e => (Normal tt, {| notifications := notifications e;
                          console := console e ++ [line] |}).

(** [await activeWin()]. *)
Definition await_activeWin (q : QueryOutcome) : Js (option WinResult) :=
  match q with
  | Resolved result => ret result
  | Rejected error => throw error
  end.

(** [mainWindow.webContents.send('active-window-change', data)], with
    [mainWindow] as it is when the statement runs. *)
Definition webContents_send (h : Host) (data : WindowChange) : Js unit :=
  match mainWindow h with
  | None => throw "TypeError: Cannot read properties of null (reading 'webContents')"
  | Some _ =>
      fun e => (Normal tt, {| notifications := notifications e ++ [data];
                              console := console e |})
  end.

(** The callback of [setInterval(..., 500)].  [h] is the host when the
    timer fires, [q] how the query ends, [h'] the host when the awaited
    query has ended and the callback goes on. *)
Definition poll_tick (h : Host) (q : QueryOutcome) (h' : Host) : Js unit :=
  match mainWindow h with
  | Some _ =>
      if activeWin_loaded h then
        try_catch
          (result <- await_activeWin q ;;
           match result with
           | Some r =>
               webContents_send h'
                 {| title := Some (result_title r);
                    owner := Some (name (result_owner r));
                    app := Some (path (result_owner r)) |}
           | None => ret tt
           end)
          (fun error => console_error ("[Window Poller Error]: " ++ error))
      else ret tt
  | None => ret tt
  end.

(** The renderer after the notifications of one tick have reached it. *)
Definition deliver (fl : Q -> Q) (env : Env) (ns : list WindowChange) (r : Renderer)
  : Completion Renderer :=
  run fl env r (map ActiveWindowChange ns).

(** ** The precedence table, as data *)

(** A rule of an ordered table: the tokens looked for in the lowercased
    name, the tokens looked for in the name as it is, and the label. *)
Record Rule := mkRule {
  folded : list string;
  literal : list string;
  label : string
}.

(** Case-insensitive substring test. *)
Definition includes_ci (s t : string) : bool :=
  includes (toLowerCase s) (toLowerCase t).

Definition matches (r : Rule) (ownerName : string) : bool :=
  existsb (includes_ci ownerName) (folded r) || existsb (includes ownerName) (literal r).

(** Rules are tried in order, the first match wins, and a name no rule
    matches is a general task. *)
Fixpoint first_match (rules : list Rule) (ownerName : string) : string :=
  match rules with
  | [] => General_Task
  | r :: rest => if matches r ownerName then label r else first_match rest ownerName
  end.

(** The table as the specification words it: every token case-insensitive,
    except ["Terminal"] and ["browser"], which are looked for in the
    unmodified name. *)
Definition spec_table : list Rule :=
  [ mkRule ["code"] ["Terminal"] Coding;
    mkRule ["chrome"] ["browser"] Browsing_Research;
    mkRule ["slack"; "whatsapp"] [] Communication;
    mkRule ["notepad"; "text"] [] Drafting;
    mkRule ["calc"] [] Calculation ].

Definition spec_classify (ownerName : string) : string :=
  first_match spec_table ownerName.

(** The table the component implements: in each of the first four rules
    the first token is looked for in the lowercased name and the second in
    the unmodified name. *)
Definition code_table : list Rule :=
  [ mkRule ["code"] ["Terminal"] Coding;
    mkRule ["chrome"] ["browser"] Browsing_Research;
    mkRule ["slack"] ["whatsapp"] Communication;
    mkRule ["notepad"] ["text"] Drafting;
    mkRule ["calc"] [] Calculation ].

(** The labels a notification can set. *)
Definition notification_labels : list string :=
  [Coding; Browsing_Research; Communication; Drafting; Calculation; General_Task].

(** ** More of the display layer *)

(** How often a sequence of events mounts the component. *)
Fixpoint count_mounts (evs : list Event) : nat :=
  match evs with
  | [] => 0
  | Mount :: rest => S (count_mounts rest)
  | _ :: rest => count_mounts rest
  end.

(** The arguments of the calls of [setIgnoreMouseEvents] a sequence of
    events makes, in order: [true] on mount and on pointer-leave, [false]
    on pointer-enter. *)
Fixpoint controls_of (evs : list Event) : list bool :=
  match evs with
  | [] => []
  | Mount :: rest => true :: controls_of rest
  | MouseEnter :: rest => false :: controls_of rest
  | MouseLeave :: rest => true :: controls_of rest
  | _ :: rest => controls_of rest
  end.

Definition is_notification (ev : Event) : bool :=
  match ev with
  | ActiveWindowChange _ => true
  | _ => false
  end.

(** The events of a component that stays mounted: everything but a mount
    and an unmount. *)
Definition stays_mounted (ev : Event) : bool :=
  match ev with
  | Mount | Unmount => false
  | _ => true
  end.

(** Among those, the ones that are not notifications: interval ticks and
    pointer events. *)
Definition is_quiet (ev : Event) : bool :=
  stays_mounted ev && negb (is_notification ev).

Definition is_interval (ev : Event) : bool :=
  match ev with
  | IntervalFires _ => true
  | _ => false
  end.

(** The range of the confidence meter. *)
Definition in_meter_range (c : Q) : Prop := 80 <= c /\ c <= 100.

(** ** More of the host shell *)

(** The main process handling the messages of the display layer, one
    after the other. *)
Fixpoint receive_all (ms : list IpcMessage) (mw : option BrowserWindow)
  : Completion (option BrowserWindow) :=
  match ms with
  | [] => Normal mw
  | m :: rest => and_then (on_ipc_message m mw) (receive_all rest)
  end.

(** The modes a list of messages asks for: the arguments of those on
    channel ['set-ignore-mouse-events'], in order. *)
Definition requested (ms : list IpcMessage) : list bool :=
  map ignore_arg
    (filter (fun m => String.eqb (channel m) "set-ignore-mouse-events") ms).

(** *** [safeConsoleCall] *)

(** What a call threw: [null] or [undefined], or a value of which the
    handler reads the properties [code] and [message] (each may be
    missing). *)
Inductive Thrown :=
| Nullish
| Value (code message : option string).

Inductive CallOutcome :=
| Returned
| Threw (t : Thrown).

Definition newline : string := String (ascii_of_nat 10) "".

(** [`${err.message}`] *)
Definition template (v : option string) : string :=
  match v with
  | Some s => s
  | None => "undefined"
  end.

Definition is_EPIPE (code : option string) : bool :=
  match code with
  | Some c => String.eqb c "EPIPE"
  | None => false
  end.

(** [safeConsoleCall(fn, args)].  [fn_apply] is how [fn.apply(console,
    args)] ends and [stderr_write] how [process.stderr.write] would end.
    The result is the list of lines written to [process.stderr], or the
    error that escapes. *)
Definition safeConsoleCall (fn_apply stderr_write : CallOutcome)
  : Completion (list string) :=
  match fn_apply with
  | Returned => Normal []
  | Threw Nullish =>
      Throw "TypeError: Cannot read properties of undefined (reading 'code')"
  | Threw (Value code message) =>
      if is_EPIPE code then Normal []
      else
        match stderr_write with
        | Returned => Normal ["Console error: " ++ template message ++ newline]
        | Threw _ => Normal []
        end
  end.

(** *** The application: [createWindow] and the [app.on] handlers *)

(** The variable [mainWindow]: declared without a value, assigned a
    window by [createWindow], and [null] by the ['closed'] handler. *)
Inductive MainWindow :=
| MwUndefined
| MwNull
| MwOpen (w : BrowserWindow).

(** The truthy content of [mainWindow]. *)
Definition window_of (mw : MainWindow) : option BrowserWindow :=
  match mw with
  | MwOpen w => Some w
  | _ => None
  end.

(** What a window was told to show. *)
Inductive Content :=
| DevServer (url : string)
| StaticExport (directory : string).

(** What the main process reads of its surroundings. *)
Record Process := mkProcess {
  isPackaged : bool;
  PORT : option string;
  platform : string
}.

(** The main process: the variables [mainWindow] and [serve]; for every
    call of [createWindow] so far, whether the [activeWin] of that call has
    been assigned (every call also starts an interval, and none is ever
    cleared); what the current window was told to load; whether its
    developer tools were opened; the console; whether [app.quit()] was
    called. *)
Record App := mkApp {
  mainWindowVar : MainWindow;
  serve : bool;
  pollers : list bool;
  content : option Content;
  devtools : bool;
  app_console : list string;
  quit_called : bool
}.

(** The main process when the script has been evaluated. *)
Definition app_start : App :=
  {| mainWindowVar := MwUndefined; serve := false; pollers := [];
     content := None; devtools := false; app_console := []; quit_called := false |}.

(** [`http://localhost:${process.env.PORT || 3000}`] *)
Definition dev_url (p : Process) : string :=
  "http://localhost:" ++ or_default (PORT p) "3000".

Definition createWindow (p : Process) (a : App) : App :=
  let isDev := negb (isPackaged p) in
  {| mainWindowVar := MwOpen created_window;
     serve := serve a;
     pollers := pollers a ++ [false];
     content :=
       if isDev then Some (DevServer (dev_url p))
       else if serve a then Some (StaticExport "out")
       else None;
     devtools := isDev;
     app_console :=
       if isDev then app_console a
       else if serve a then app_console a
       else app_console a ++ ["Electron-serve not loaded yet"];
     quit_called := quit_called a |}.

Definition set_mainWindow (mw : MainWindow) (a : App) : App :=
  {| mainWindowVar := mw; serve := serve a; pollers := pollers a;
     content := content a; devtools := devtools a;
     app_console := app_console a; quit_called := quit_called a |}.

Definition set_pollers (ps : list bool) (a : App) : App :=
  {| mainWindowVar := mainWindowVar a; serve := serve a; pollers := ps;
     content := content a; devtools := devtools a;
     app_console := app_console a; quit_called := quit_called a |}.

(** [activeWin = mod.default || mod] in the [i]-th call of [createWindow]. *)
Fixpoint assign_activeWin (i : nat) (ps : list bool) : list bool :=
  match ps, i with
  | [], _ => []
  | _ :: rest, O => true :: rest
  | b :: rest, S j => b :: assign_activeWin j rest
  end.

(** Things that happen to the main process. *)
Inductive AppEvent :=
| Ready
| Activate
| WindowAllClosed
| Closed
| IpcFromWindow (m : IpcMessage)
| ServeImported
| ActiveWinImported (i : nat)
| ActiveWinImportFailed (i : nat) (error : string).

(** One event, handled to completion by the handler the script
    registered for it. *)
Definition app_step (p : Process) (a : App) (ev : AppEvent) : Completion App :=
  match ev with
  | Ready => Normal (createWindow p a)
  | Activate =>
      match mainWindowVar a with
      | MwNull => Normal (createWindow p a)
      | _ => Normal a
      end
  | WindowAllClosed =>
      if String.eqb (platform p) "darwin" then Normal a
      else Normal {| mainWindowVar := mainWindowVar a; serve := serve a;
                     pollers := pollers a; content := content a;
                     devtools := devtools a; app_console := app_console a;
                     quit_called := true |}
  | Closed => Normal (set_mainWindow MwNull a)
  | IpcFromWindow m =>
      and_then (on_ipc_message m (window_of (mainWindowVar a))) (fun mw =>
      match mw with
      | Some w => Normal (set_mainWindow (MwOpen w) a)
      | None => Normal a
      end)
  | ServeImported =>
      Normal {| mainWindowVar := mainWindowVar a; serve := true;
                pollers := pollers a; content := content a;
                devtools := devtools a; app_console := app_console a;
                quit_called := quit_called a |}
  | ActiveWinImported i => Normal (set_pollers (assign_activeWin i (pollers a)) a)
  | ActiveWinImportFailed i error =>
      Normal {| mainWindowVar := mainWindowVar a; serve := serve a;
                pollers := pollers a; content := content a;
                devtools := devtools a;
                app_console := app_console a ++ ["Failed to load active-win: " ++ error];
                quit_called := quit_called a |}
  end.

Fixpoint app_run (p : Process) (a : App) (evs : list AppEvent) : Completion App :=
  match evs with
  | [] => Normal a
  | ev :: rest => and_then (app_step p a ev) (fun a' => app_run p a' rest)
  end.

(** What the timer callback of the [i]-th call of [createWindow] reads. *)
Definition host_at (a : App) (i : nat) : Host :=
  {| mainWindow := window_of (mainWindowVar a);
     activeWin_loaded := nth i (pollers a) false |}.

(** * Properties *)

(** ** Strings *)

Lemma prefix_app (t s : string) :
  prefix t s = true <-> exists post, s = t ++ post.
Proof.
  revert s; induction t as [|c t IH]; intros s; simpl.
  - destruct s; split; eauto.
  - destruct s as [|d s].
    + split; [discriminate | intros [post H]; discriminate].
    + simpl. destruct (Ascii.ascii_dec c d) as [e|ne].
      * subst d. rewrite IH. split; intros [post H]; exists post.
        -- now rewrite H.
        -- now injection H.
      * split; [discriminate | intros [post H]; injection H; congruence].
Qed.

(** [includes] finds exactly the contiguous occurrences. *)
Lemma includes_occurs (s t : string) :
  includes s t = true <-> exists pre post, s = pre ++ t ++ post.
Proof.
  induction s as [|c s IH]; cbn [includes].
  - rewrite orb_false_r, prefix_app. split.
    + intros [post H]. now exists "", post.
    + intros [[|d pre] [post H]]; [now exists post | discriminate].
  - rewrite orb_true_iff, prefix_app, IH. split.
    + intros [[post H] | [pre [post H]]].
      * now exists "", post.
      * exists (String c pre), post. simpl. now rewrite H.
    + intros [[|d pre] [post H]].
      * left. now exists post.
      * right. injection H as _ H. now exists pre, post.
Qed.

Lemma lower_ascii_idem (c : ascii) : lower_ascii (lower_ascii c) = lower_ascii c.
Proof.
  destruct c as [[] [] [] [] [] [] [] []]; reflexivity.
Qed.

Lemma toLowerCase_idem (s : string) : toLowerCase (toLowerCase s) = toLowerCase s.
Proof.
  induction s as [|c s IH]; simpl; [reflexivity|].
  now rewrite lower_ascii_idem, IH.
Qed.

Lemma toLowerCase_length (s : string) : String.length (toLowerCase s) = String.length s.
Proof.
  induction s as [|c s IH]; simpl; congruence.
Qed.

(** ** Classification *)

Lemma classify_code_table (ownerName : string) :
  classify ownerName = first_match code_table ownerName.
Proof.
  unfold classify, code_table, first_match, matches, includes_ci; simpl existsb.
  change (toLowerCase "code") with "code".
  change (toLowerCase "chrome") with "chrome".
  change (toLowerCase "slack") with "slack".
  change (toLowerCase "notepad") with "notepad".
  change (toLowerCase "calc") with "calc".
  rewrite !orb_false_r. reflexivity.
Qed.

Lemma first_match_labels (rules : list Rule) (ownerName : string) :
  In (first_match rules ownerName) (General_Task :: map label rules).
Proof.
  induction rules as [|r rules IH]; simpl; [now left|].
  destruct (matches r ownerName).
  - right; now left.
  - destruct IH as [H | H]; [now left | right; now right].
Qed.

Lemma classify_labels (ownerName : string) :
  In (classify ownerName) notification_labels.
Proof.
  rewrite classify_code_table.
  pose proof (first_match_labels code_table ownerName) as H.
  unfold notification_labels. simpl in *. tauto.
Qed.

(** On a name without capital letters the two tables agree. *)
Lemma classify_spec_on_lowercase (ownerName : string) :
  toLowerCase ownerName = ownerName ->
  classify ownerName = spec_classify ownerName.
Proof.
  intros H. unfold classify, spec_classify, spec_table, first_match, matches, includes_ci.
  simpl existsb. rewrite H.
  change (toLowerCase "code") with "code".
  change (toLowerCase "chrome") with "chrome".
  change (toLowerCase "slack") with "slack".
  change (toLowerCase "whatsapp") with "whatsapp".
  change (toLowerCase "notepad") with "notepad".
  change (toLowerCase "text") with "text".
  change (toLowerCase "calc") with "calc".
  rewrite !orb_false_r. reflexivity.
Qed.

(** C1 (as the specification states it, refuted).  The specification has
    rules 3 and 4 case-insensitive for both of their tokens.  On the owner
    name ["WhatsApp"] the component answers [General_Task], because it looks
    for ["whatsapp"] in the unmodified name, while the table of the
    specification answers [Communication]. *)
Lemma classify_WhatsApp_differs_from_spec :
  classify "WhatsApp" = General_Task /\
  spec_classify "WhatsApp" = Communication /\
  classify "WhatsApp" <> spec_classify "WhatsApp".
Proof.
  repeat split; try reflexivity.
  vm_compute. discriminate.
Qed.

(** The same happens in rule 4 with ["TextEdit"]. *)
Lemma classify_TextEdit_differs_from_spec :
  classify "TextEdit" = General_Task /\ spec_classify "TextEdit" = Drafting.
Proof. split; reflexivity. Qed.

(** C1 (amended).  For every owner name, [classify] follows the precedence
    table in which rules are tried in order 1-6 and the first match wins,
    the first token of each rule (["code"], ["chrome"], ["slack"],
    ["notepad"], ["calc"]) is looked for in the lowercased name, and the
    second token of rules 1-4 (["Terminal"], ["browser"], ["whatsapp"],
    ["text"]) is looked for in the unmodified name. *)
Theorem classify_follows_code_table :
  forall ownerName : string, classify ownerName = first_match code_table ownerName.
Proof.
  exact classify_code_table.
Qed.

(** C3.  [classify] is a function defined on every owner name, its value is
    always one of the six labels a notification can set, and on the named
    inputs of the specification it returns the named labels. *)
Theorem classify_total_and_named_inputs :
  (forall ownerName : string, In (classify ownerName) notification_labels) /\
  classify "Visual Studio Code" = Coding /\
  classify "Google Chrome" = Browsing_Research /\
  classify "Slack" = Communication /\
  classify "Notepad" = Drafting /\
  classify "Calculator" = Calculation /\
  classify "Spotify" = General_Task.
Proof.
  split; [exact classify_labels|].
  repeat split; reflexivity.
Qed.

(** ** The notification listener *)

Lemma on_change_fields (data : WindowChange) (st : HudState) :
  appContext (on_active_window_change data st) = or_default (owner data) "Unknown" /\
  intent (on_active_window_change data st) = classify (or_default (owner data) "Unknown") /\
  confidence (on_active_window_change data st) = confidence st.
Proof. repeat split. Qed.

Lemma on_change_idem (data : WindowChange) (st : HudState) :
  on_active_window_change data (on_active_window_change data st) =
  on_active_window_change data st.
Proof. reflexivity. Qed.

Lemma iter_on_change (data : WindowChange) (n : nat) (st : HudState) :
  Nat.iter (S n) (on_active_window_change data) st = on_active_window_change data st.
Proof.
  induction n as [|n IH]; [reflexivity|].
  change (Nat.iter (S (S n)) (on_active_window_change data) st)
    with (on_active_window_change data (Nat.iter (S n) (on_active_window_change data) st)).
  rewrite IH. apply on_change_idem.
Qed.

Lemma iter_on_change_twice (data : WindowChange) (n : nat) (st : HudState) :
  Nat.iter n (on_active_window_change data) (Nat.iter n (on_active_window_change data) st) =
  Nat.iter n (on_active_window_change data) st.
Proof.
  destruct n as [|n]; [reflexivity|].
  rewrite !iter_on_change. apply on_change_idem.
Qed.

(** C4.  A notification whose owner name is undefined leaves the listener
    with [appContext = "Unknown"] and [intent = General_Task]; and a
    component with any positive number of registered listeners handles
    the notification to a normal completion, not a throw, in a state with
    those two values. *)
Theorem missing_owner_is_unknown_general_task :
  forall (t a : option string) (st : HudState),
    let data := {| title := t; owner := None; app := a |} in
    appContext (on_active_window_change data st) = "Unknown" /\
    intent (on_active_window_change data st) = General_Task /\
    forall fl env n running sent,
      let r := {| hud := st; listeners := S n; interval_running := running; outbox := sent |} in
      exists r',
        step fl env r (ActiveWindowChange data) = Normal r' /\
        appContext (hud r') = "Unknown" /\
        intent (hud r') = General_Task.
Proof.
  intros t a st data. split; [reflexivity|]. split; [reflexivity|].
  intros fl env n running sent r. subst r.
  eexists. split; [reflexivity|].
  cbn [with_hud hud listeners]. rewrite iter_on_change.
  split; reflexivity.
Qed.

(** C10.  The empty owner name is falsy, so it is replaced by ["Unknown"]
    exactly as an undefined one is: the two notifications lead to the same
    state, with [appContext = "Unknown"] and [intent = General_Task]. *)
Theorem empty_owner_is_treated_as_missing :
  forall (t a : option string) (st : HudState),
    let empty := {| title := t; owner := Some ""; app := a |} in
    let missing := {| title := t; owner := None; app := a |} in
    truthy (owner empty) = false /\
    on_active_window_change empty st = on_active_window_change missing st /\
    appContext (on_active_window_change empty st) = "Unknown" /\
    intent (on_active_window_change empty st) = General_Task.
Proof.
  intros; repeat split.
Qed.

(** The fallback is taken exactly on the falsy owner values. *)
Lemma or_default_truthy (v : option string) (d : string) :
  or_default v d = if truthy v then match v with Some s => s | None => d end else d.
Proof. destruct v as [[|c s]|]; reflexivity. Qed.

(** C8.  Delivering the same snapshot twice in a row leaves, after the
    second delivery, the [appContext] and [intent] the first delivery
    produced; and what a delivery produces does not depend on the state it
    found.  This holds for the listener and for a component with any
    number of registered listeners. *)
Theorem same_snapshot_twice_same_display :
  forall (data : WindowChange),
    (forall st,
        appContext (on_active_window_change data (on_active_window_change data st)) =
        appContext (on_active_window_change data st) /\
        intent (on_active_window_change data (on_active_window_change data st)) =
        intent (on_active_window_change data st)) /\
    (forall st st',
        appContext (on_active_window_change data st) =
        appContext (on_active_window_change data st') /\
        intent (on_active_window_change data st) =
        intent (on_active_window_change data st')) /\
    (forall fl env r,
        run fl env r [ActiveWindowChange data; ActiveWindowChange data] =
        run fl env r [ActiveWindowChange data]).
Proof.
  intros data. split; [|split].
  - intros st. split; reflexivity.
  - intros st st'. split; reflexivity.
  - intros fl env [st n running sent].
    cbn [run step and_then]. unfold with_hud; cbn [hud listeners interval_running outbox].
    now rewrite iter_on_change_twice.
Qed.

(** ** Mounting *)

Lemma require_electron_bridge (env : Env) :
  host_bridge env = true -> require_electron env = Normal tt.
Proof.
  unfold host_bridge, require_electron.
  destruct (window_defined env), (window_require env); simpl; congruence.
Qed.

Lemma setIgnoreMouseEvents_normal (env : Env) (ignore : bool) (r : Renderer) :
  setIgnoreMouseEvents env ignore r =
  Normal (if host_bridge env
          then ipcRenderer_send (mkIpc "set-ignore-mouse-events" ignore) r
          else r).
Proof.
  unfold setIgnoreMouseEvents.
  destruct (host_bridge env) eqn:E; [|reflexivity].
  now rewrite (require_electron_bridge env E).
Qed.

Lemma mount_normal (env : Env) (r : Renderer) :
  mount env r =
  Normal (if host_bridge env
          then ipcRenderer_send (mkIpc "set-ignore-mouse-events" true)
                 (ipcRenderer_on (setInterval r))
          else setInterval r).
Proof.
  unfold mount, effect_alive, effect_click_through.
  destruct (host_bridge env) eqn:E.
  - rewrite (require_electron_bridge env E). cbn [and_then].
    rewrite setIgnoreMouseEvents_normal, E. reflexivity.
  - cbn [and_then]. rewrite setIgnoreMouseEvents_normal, E. reflexivity.
Qed.

(** Every event is handled to a normal completion. *)
Lemma step_normal (fl : Q -> Q) (env : Env) (r : Renderer) (ev : Event) :
  exists r', step fl env r ev = Normal r'.
Proof.
  destruct ev; cbn [step].
  - rewrite mount_normal. eauto.
  - eauto.
  - rewrite setIgnoreMouseEvents_normal. eauto.
  - rewrite setIgnoreMouseEvents_normal. eauto.
  - destruct (interval_running r); eauto.
  - eauto.
Qed.

(** Mounting, all guards resolved: a new instance, its interval, and with
    the bridge its listener and the first control. *)
Lemma step_mount (fl : Q -> Q) (env : Env) (r : Renderer) :
  step fl env r Mount =
  Normal (if host_bridge env
          then ipcRenderer_send (mkIpc "set-ignore-mouse-events" true)
                 (ipcRenderer_on (setInterval (new_instance r)))
          else setInterval (new_instance r)).
Proof. cbn [step]. apply mount_normal. Qed.

Lemma run_normal (fl : Q -> Q) (env : Env) (evs : list Event) (r : Renderer) :
  exists r', run fl env r evs = Normal r'.
Proof.
  revert r; induction evs as [|ev evs IH]; intros r; cbn [run]; [eauto|].
  destruct (step_normal fl env r ev) as [r1 ->]. apply IH.
Qed.


(** ** The confidence meter *)

Lemma clamp_bounds (x : Q) : 80 <= Qmin 100 (Qmax 80 x) /\ Qmin 100 (Qmax 80 x) <= 100.
Proof.
  split.
  - apply Q.min_glb; [discriminate | apply Q.le_max_l].
  - apply Q.le_min_l.
Qed.

Lemma clamp_is_spec_clamp (x : Q) : Qmin 100 (Qmax 80 x) == spec_clamp x.
Proof.
  unfold spec_clamp.
  destruct (Qlt_le_dec x 80) as [lo | lo].
  - rewrite (Q.max_l 80 x) by now apply Qlt_le_weak.
    apply Q.min_r. discriminate.
  - rewrite (Q.max_r 80 x) by exact lo.
    destruct (Qlt_le_dec 100 x) as [hi | hi].
    + apply Q.min_l. now apply Qlt_le_weak.
    + now apply Q.min_r.
Qed.


(** C2.  Whatever the prior value, the random number and the rounding of
    the arithmetic, the updated confidence lies in [[80,100]], and it is
    the clamp of the sum: 80 when the sum is below 80, 100 when it is above
    100, the sum itself otherwise.  The same bounds hold for the state of
    a component after its interval callback has run. *)
Theorem confidence_update_within_80_100 :
  forall (fl : Q -> Q) (random prev : Q),
    80 <= next_confidence fl random prev /\
    next_confidence fl random prev <= 100 /\
    next_confidence fl random prev == spec_clamp (fl (prev + jitter fl random)) /\
    forall env i a n sent,
      let r := {| hud := mkHud i a prev; listeners := n;
                  interval_running := true; outbox := sent |} in
      exists r',
        step fl env r (IntervalFires random) = Normal r' /\
        80 <= confidence (hud r') /\ confidence (hud r') <= 100.
Proof.
  intros fl random prev. unfold next_confidence.
  pose proof (clamp_bounds (fl (prev + jitter fl random))) as [lo hi].
  split; [exact lo|]. split; [exact hi|]. split; [apply clamp_is_spec_clamp|].
  intros env i a n sent. eexists. split; [reflexivity|].
  split; [exact lo | exact hi].
Qed.

Section FirstUpdate.

(** The rounding of the arithmetic: monotone, and not above 1/2 and 5 on
    those two numbers (both are floating point numbers, so rounding
    fixes them). *)
Variable fl : Q -> Q.
Hypothesis fl_monotone : forall x y : Q, x <= y -> fl x <= fl y.
Hypothesis fl_half : fl (1 # 2) <= 1 # 2.
Hypothesis fl_five : fl 5 <= 5.



End FirstUpdate.


(** ** Talking to the host *)

Lemma host_bridge_needs_require (env : Env) :
  window_require env = false -> host_bridge env = false.
Proof.
  intros H. unfold host_bridge. rewrite H. apply andb_false_r.
Qed.

(** C5.  In a host where the bridge is there: the first render shows
    [appContext = "Detecting..."] and [intent = "Idle"]; mounting sends one
    control with [ignore = true], whatever the component had sent before,
    and starts from the initial state cells; after mount, the snapshot with owner
    ["Code.exe"] makes the state [appContext = "Code.exe"],
    [intent = "Coding"]; pointer-enter sends a control with
    [ignore = false] and pointer-leave one with [ignore = true].  The
    whole scenario in a row sends exactly these three controls. *)
Theorem end_to_end_display_layer :
  forall (fl : Q -> Q) (env : Env),
    host_bridge env = true ->
    (appContext (hud first_render) = "Detecting..." /\ intent (hud first_render) = "Idle") /\
    (forall r, exists r',
        step fl env r Mount = Normal r' /\
        hud r' = initial_state /\
        outbox r' = (outbox r ++ [mkIpc "set-ignore-mouse-events" true])%list) /\
    (forall t a, exists r',
        run fl env first_render
          [Mount; ActiveWindowChange {| title := t; owner := Some "Code.exe"; app := a |}]
        = Normal r' /\
        appContext (hud r') = "Code.exe" /\ intent (hud r') = "Coding" /\
        outbox r' = [mkIpc "set-ignore-mouse-events" true]) /\
    (forall r, exists r',
        step fl env r MouseEnter = Normal r' /\
        outbox r' = (outbox r ++ [mkIpc "set-ignore-mouse-events" false])%list) /\
    (forall r, exists r',
        step fl env r MouseLeave = Normal r' /\
        outbox r' = (outbox r ++ [mkIpc "set-ignore-mouse-events" true])%list) /\
    (forall t a, exists r',
        run fl env first_render
          [Mount; ActiveWindowChange {| title := t; owner := Some "Code.exe"; app := a |};
           MouseEnter; MouseLeave]
        = Normal r' /\
        hud r' = {| intent := "Coding"; appContext := "Code.exe"; confidence := 0 |} /\
        outbox r' = [mkIpc "set-ignore-mouse-events" true;
                     mkIpc "set-ignore-mouse-events" false;
                     mkIpc "set-ignore-mouse-events" true]).
Proof.
  intros fl env E. split; [split; reflexivity|].
  split; [|split; [|split; [|split]]].
  - intros r. cbn [step]. rewrite mount_normal, E. eexists. repeat split.
  - intros t a. cbn [run step]. rewrite mount_normal, E. cbn [and_then].
    eexists. repeat split.
  - intros r. cbn [step]. rewrite setIgnoreMouseEvents_normal, E. eexists. repeat split.
  - intros r. cbn [step]. rewrite setIgnoreMouseEvents_normal, E. eexists. repeat split.
  - intros t a. cbn [run step]. rewrite mount_normal, E. cbn [and_then].
    rewrite !setIgnoreMouseEvents_normal, E. cbn [and_then].
    rewrite !setIgnoreMouseEvents_normal, E. cbn [and_then].
    eexists. repeat split.
Qed.

Lemma end_to_end_display_layer_witness :
  host_bridge (mkEnv true true) = true /\
  exists r',
    run exact (mkEnv true true) first_render
      [Mount; ActiveWindowChange {| title := None; owner := Some "Code.exe"; app := None |};
       MouseEnter; MouseLeave]
    = Normal r' /\
    hud r' = {| intent := "Coding"; appContext := "Code.exe"; confidence := 0 |} /\
    outbox r' = [mkIpc "set-ignore-mouse-events" true;
                 mkIpc "set-ignore-mouse-events" false;
                 mkIpc "set-ignore-mouse-events" true].
Proof.
  split; [reflexivity|].
  destruct (end_to_end_display_layer exact (mkEnv true true) eq_refl)
    as [_ [_ [_ [_ [_ H]]]]].
  exact (H None None).
Defined.

(** C7.  Where [window.require] is absent, every event is handled to a
    normal completion that sends nothing and registers no listener; a
    call of [setIgnoreMouseEvents] returns the component unchanged; and
    mounting ends normally with the state cells of the first render and
    the interval running. *)
Theorem no_bridge_calls_are_no_ops :
  forall (fl : Q -> Q) (env : Env),
    window_require env = false ->
    (forall r ev, exists r',
        step fl env r ev = Normal r' /\
        outbox r' = outbox r /\ listeners r' = listeners r) /\
    (forall ignore r, setIgnoreMouseEvents env ignore r = Normal r) /\
    mount env first_render =
      Normal {| hud := initial_state; listeners := 0;
                interval_running := true; outbox := [] |}.
Proof.
  intros fl env H. pose proof (host_bridge_needs_require env H) as E.
  split; [|split].
  - intros r ev. destruct ev; cbn [step].
    + rewrite mount_normal, E. eexists. repeat split.
    + eexists. repeat split.
    + rewrite setIgnoreMouseEvents_normal, E. eexists. repeat split.
    + rewrite setIgnoreMouseEvents_normal, E. eexists. repeat split.
    + destruct (interval_running r); eexists; repeat split.
    + eexists. repeat split.
  - intros ignore r. now rewrite setIgnoreMouseEvents_normal, E.
  - now rewrite mount_normal, E.
Qed.

Lemma no_bridge_calls_are_no_ops_witness :
  window_require (mkEnv true false) = false /\
  setIgnoreMouseEvents (mkEnv true false) false first_render = Normal first_render /\
  mount (mkEnv true false) first_render =
    Normal {| hud := initial_state; listeners := 0;
              interval_running := true; outbox := [] |}.
Proof.
  split; [reflexivity|].
  destruct (no_bridge_calls_are_no_ops exact (mkEnv true false) eq_refl) as [_ [H1 H2]].
  split; [exact (H1 false first_render) | exact H2].
Defined.

(** Without the guard the call itself would throw there. *)
Lemma require_electron_throws_without_require (env : Env) :
  window_require env = false -> exists error, require_electron env = Throw error.
Proof.
  intros H. unfold require_electron. rewrite H.
  destruct (window_defined env); eauto.
Qed.

(** ** The host shell *)

(** A control from the display layer sets the hit-test mode of the open
    window; [true] is click-through, [false] capturing. *)
Lemma on_ipc_message_sets_mode (w : BrowserWindow) (ignore : bool) :
  on_ipc_message (mkIpc "set-ignore-mouse-events" ignore) (Some w)
  = Normal (Some {| ignoreMouseEvents := ignore; forward := true |}).
Proof. reflexivity. Qed.

(** The query is not made, and nothing happens, while there is no window
    or the module has not loaded. *)
Lemma poll_tick_idle (h h' : Host) (q : QueryOutcome) (e0 : Effects) :
  mainWindow h = None \/ activeWin_loaded h = false ->
  poll_tick h q h' e0 = (Normal tt, e0).
Proof.
  intros [H | H]; unfold poll_tick; rewrite H; [reflexivity|].
  destruct (mainWindow h); reflexivity.
Qed.

(** The callback never throws: whatever is thrown inside is caught. *)
Lemma poll_tick_normal (h h' : Host) (q : QueryOutcome) (e0 : Effects) :
  fst (poll_tick h q h' e0) = Normal tt.
Proof.
  unfold poll_tick.
  destruct (mainWindow h) as [w|]; [|reflexivity].
  destruct (activeWin_loaded h); [|reflexivity].
  unfold try_catch, bind.
  destruct q as [[res|]|error]; cbn; try reflexivity.
  unfold webContents_send. destruct (mainWindow h'); reflexivity.
Qed.

(** A tick notifies only if the query resolved with a result. *)
Lemma poll_tick_skips (h h' : Host) (q : QueryOutcome) (e0 : Effects) :
  (forall res, q <> Resolved (Some res)) ->
  notifications (snd (poll_tick h q h' e0)) = notifications e0.
Proof.
  intros H. unfold poll_tick.
  destruct (mainWindow h) as [w|]; [|reflexivity].
  destruct (activeWin_loaded h); [|reflexivity].
  destruct q as [[res|]|error]; [now destruct (H res) | reflexivity | reflexivity].
Qed.

(** C6 (as the specification states it, refuted).  The specification has
    every tick whose query succeeds with a result send exactly one
    notification.  The timer fires with the window open and the module
    loaded, the query resolves with a result, but the window has been
    closed while the query was awaited: the send on the [null] window
    throws, the [catch] of the tick logs the error, and no notification
    is sent. *)
Lemma poll_tick_result_without_notification :
  poll_tick (mkHost (Some created_window) true)
    (Resolved (Some (mkResult "main.ts" (mkOwner "Code.exe" "C:/Code.exe"))))
    (mkHost None true) no_effects
  = (Normal tt,
     {| notifications := [];
        console := ["[Window Poller Error]: TypeError: Cannot read properties of null (reading 'webContents')"] |}) /\
  notifications
    (snd (poll_tick (mkHost (Some created_window) true)
            (Resolved (Some (mkResult "main.ts" (mkOwner "Code.exe" "C:/Code.exe"))))
            (mkHost None true) no_effects))
  <> [{| title := Some "main.ts"; owner := Some "Code.exe"; app := Some "C:/Code.exe" |}].
Proof.
  split; [reflexivity|]. cbn. discriminate.
Qed.

(** C6 (amended).  A poll tick always ends normally.  When the timer
    fires with the window open and the query module loaded, and the query
    resolves with a result while the window is still open, the tick sends
    exactly one notification, carrying the title, the owner name and the
    owner path.  When the window has been closed while the query was
    awaited, or the query rejects or resolves with nothing, the tick
    sends no notification; and after a query that rejected or resolved
    with nothing, a display layer that receives what the tick sent is
    left exactly as it was. *)
Theorem poll_tick_notifies_once_or_skips :
  (forall h q h' e0, fst (poll_tick h q h' e0) = Normal tt) /\
  (forall w w' loaded' res e0,
      notifications
        (snd (poll_tick (mkHost (Some w) true) (Resolved (Some res))
                        (mkHost (Some w') loaded') e0))
      = (notifications e0 ++
         [{| title := Some (result_title res);
             owner := Some (name (result_owner res));
             app := Some (path (result_owner res)) |}])%list) /\
  (forall w loaded' res e0,
      notifications
        (snd (poll_tick (mkHost (Some w) true) (Resolved (Some res))
                        (mkHost None loaded') e0))
      = notifications e0) /\
  (forall h h' error e0,
      notifications (snd (poll_tick h (Rejected error) h' e0)) = notifications e0) /\
  (forall h h' e0,
      notifications (snd (poll_tick h (Resolved None) h' e0)) = notifications e0) /\
  (forall h h' error fl env r,
      deliver fl env (notifications (snd (poll_tick h (Rejected error) h' no_effects))) r
      = Normal r) /\
  (forall h h' fl env r,
      deliver fl env (notifications (snd (poll_tick h (Resolved None) h' no_effects))) r
      = Normal r).
Proof.
  split; [intros; apply poll_tick_normal|].
  split; [reflexivity|].
  split; [reflexivity|].
  split; [intros; now apply poll_tick_skips|].
  split; [intros; now apply poll_tick_skips|].
  split; intros; now rewrite poll_tick_skips.
Qed.

(** A rejected query leaves one line on the console. *)
Lemma poll_tick_logs_rejection (w w' : BrowserWindow) (loaded' : bool) (error : string) :
  poll_tick (mkHost (Some w) true) (Rejected error) (mkHost (Some w') loaded') no_effects
  = (Normal tt, {| notifications := [];
                   console := ["[Window Poller Error]: " ++ error] |}).
Proof. reflexivity. Qed.

(** A delivered notification reaches a mounted component. *)
Lemma poll_tick_then_deliver :
  exists r r',
    mount (mkEnv true true) first_render = Normal r /\
    deliver exact (mkEnv true true)
      (notifications
         (snd (poll_tick (mkHost (Some created_window) true)
                 (Resolved (Some (mkResult "main.ts" (mkOwner "Code.exe" "C:\Code.exe"))))
                 (mkHost (Some created_window) true) no_effects))) r
    = Normal r' /\
    hud r' = {| intent := "Coding"; appContext := "Code.exe"; confidence := 0 |}.
Proof.
  eexists. eexists. split; [reflexivity|]. split; reflexivity.
Qed.

(** If the window is closed while the query is awaited, the send throws,
    the throw is caught, and the tick ends normally without a
    notification. *)
Lemma poll_tick_window_closed_meanwhile
      (w : BrowserWindow) (loaded' : bool) (res : WinResult) :
  poll_tick (mkHost (Some w) true) (Resolved (Some res)) (mkHost None loaded') no_effects
  = (Normal tt,
     {| notifications := [];
        console := ["[Window Poller Error]: TypeError: Cannot read properties of null (reading 'webContents')"] |}).
Proof. reflexivity. Qed.

(** * Further properties of the code *)

(** ** Which names are coding *)

Lemma toLowerCase_app (a b : string) :
  toLowerCase (a ++ b) = toLowerCase a ++ toLowerCase b.
Proof.
  induction a as [|c a IH]; simpl; [reflexivity | now rewrite IH].
Qed.

Lemma toLowerCase_split (s x y : string) :
  toLowerCase s = x ++ y ->
  exists a b, s = a ++ b /\ toLowerCase a = x /\ toLowerCase b = y.
Proof.
  revert s; induction x as [|c x IH]; intros s H.
  - exists "", s. auto.
  - destruct s as [|d s]; [discriminate|].
    simpl in H. injection H as Hc Hs.
    destruct (IH s Hs) as [a [b [E [Ha Hb]]]].
    exists (String d a), b. simpl. rewrite E, Ha, Hc. auto.
Qed.

(** Looking in the lowercased name finds the token in any letter case. *)
Lemma includes_lowered_occurs (s t : string) :
  includes (toLowerCase s) t = true <->
  exists pre u post, s = pre ++ u ++ post /\ toLowerCase u = t.
Proof.
  rewrite includes_occurs. split.
  - intros [x [z H]].
    destruct (toLowerCase_split s x (t ++ z) H) as [pre [rest [E [_ Hrest]]]].
    destruct (toLowerCase_split rest t z Hrest) as [u [post [E' [Hu _]]]].
    exists pre, u, post. now rewrite E, E'.
  - intros [pre [u [post [E Hu]]]].
    exists (toLowerCase pre), (toLowerCase post).
    now rewrite E, !toLowerCase_app, Hu.
Qed.

Lemma classify_Coding_iff_rule_1 (appName : string) :
  classify appName = Coding <->
  includes (toLowerCase appName) "code" || includes appName "Terminal" = true.
Proof.
  unfold classify.
  destruct (includes (toLowerCase appName) "code" || includes appName "Terminal").
  - tauto.
  - split; [|discriminate].
    destruct (includes (toLowerCase appName) "chrome" || includes appName "browser");
      [discriminate|].
    destruct (includes (toLowerCase appName) "slack" || includes appName "whatsapp");
      [discriminate|].
    destruct (includes (toLowerCase appName) "notepad" || includes appName "text");
      [discriminate|].
    destruct (includes (toLowerCase appName) "calc"); discriminate.
Qed.

(** X1.  A name is classified as coding exactly when it contains, at some
    position, the letters of ["code"] in any mix of upper and lower case,
    or the word ["Terminal"] spelled exactly so; whatever else the name
    contains makes no difference. *)
Theorem classify_Coding_iff :
  forall appName : string,
    classify appName = Coding <->
    exists pre u post,
      appName = pre ++ u ++ post /\ (toLowerCase u = "code" \/ u = "Terminal").
Proof.
  intros appName.
  rewrite classify_Coding_iff_rule_1, orb_true_iff, includes_lowered_occurs, includes_occurs.
  split.
  - intros [[pre [u [post [E H]]]] | [pre [post E]]].
    + exists pre, u, post. auto.
    + exists pre, "Terminal", post. auto.
  - intros [pre [u [post [E [H | H]]]]].
    + left. now exists pre, u, post.
    + right. subst u. now exists pre, post.
Qed.

(** X2.  A notification never sets the intent back to ["Idle"]: whatever
    the snapshot and the state, the intent after the listener has run is
    one of the six notification labels, none of which is ["Idle"]. *)
Theorem notification_never_sets_Idle :
  forall (data : WindowChange) (st : HudState),
    In (intent (on_active_window_change data st)) notification_labels /\
    intent (on_active_window_change data st) <> Idle.
Proof.
  intros data st.
  pose proof (classify_labels (or_default (owner data) "Unknown")) as H.
  split; [exact H|].
  change (intent (on_active_window_change data st))
    with (classify (or_default (owner data) "Unknown")).
  unfold notification_labels in H. simpl in H.
  intros E. rewrite E in H.
  destruct H as [H | [H | [H | [H | [H | [H | []]]]]]]; discriminate.
Qed.

(** ** Sequences of events in the display layer *)

(** What each event does, all guards resolved. *)
Lemma step_cases (fl : Q -> Q) (env : Env) (r : Renderer) (ev : Event) :
  step fl env r ev =
  Normal
    match ev with
    | Mount =>
        if host_bridge env
        then ipcRenderer_send (mkIpc "set-ignore-mouse-events" true)
               (ipcRenderer_on (setInterval (new_instance r)))
        else setInterval (new_instance r)
    | ActiveWindowChange data =>
        with_hud (Nat.iter (listeners r) (on_active_window_change data)) r
    | MouseEnter =>
        if host_bridge env
        then ipcRenderer_send (mkIpc "set-ignore-mouse-events" false) r else r
    | MouseLeave =>
        if host_bridge env
        then ipcRenderer_send (mkIpc "set-ignore-mouse-events" true) r else r
    | IntervalFires random =>
        if interval_running r then with_hud (on_interval fl random) r else r
    | Unmount => clearInterval r
    end.
Proof.
  destruct ev; cbn [step].
  - apply mount_normal.
  - reflexivity.
  - apply setIgnoreMouseEvents_normal.
  - apply setIgnoreMouseEvents_normal.
  - now destruct (interval_running r).
  - reflexivity.
Qed.

Lemma run_cons (fl : Q -> Q) (env : Env) (r : Renderer) (ev : Event) (evs : list Event) :
  run fl env r (ev :: evs) = and_then (step fl env r ev) (fun r' => run fl env r' evs).
Proof. reflexivity. Qed.

Lemma run_app (fl : Q -> Q) (env : Env) (evs evs' : list Event) (r : Renderer) :
  run fl env r (evs ++ evs') =
  and_then (run fl env r evs) (fun r' => run fl env r' evs').
Proof.
  revert r; induction evs as [|ev evs IH]; intros r; [reflexivity|].
  rewrite <- app_comm_cons, !run_cons.
  destruct (step_normal fl env r ev) as [r1 E]. rewrite E. cbn [and_then]. apply IH.
Qed.

(** An invariant of single events is an invariant of sequences. *)
Lemma run_invariant (fl : Q -> Q) (env : Env) (P : Renderer -> Prop) :
  (forall r ev r', P r -> step fl env r ev = Normal r' -> P r') ->
  forall evs r, P r -> exists r', run fl env r evs = Normal r' /\ P r'.
Proof.
  intros Hstep evs; induction evs as [|ev evs IH]; intros r HP.
  - exists r. split; [reflexivity | exact HP].
  - rewrite run_cons. destruct (step_normal fl env r ev) as [r1 E]. rewrite E.
    cbn [and_then]. apply IH. exact (Hstep r ev r1 HP E).
Qed.

Lemma step_listeners_grow (fl : Q -> Q) (env : Env) (r r' : Renderer) (ev : Event) :
  step fl env r ev = Normal r' -> (listeners r <= listeners r')%nat.
Proof.
  rewrite step_cases. intros H; injection H as <-.
  destruct ev; cbn; try lia.
  - destruct (host_bridge env); cbn; lia.
  - destruct (host_bridge env); cbn; lia.
  - destruct (host_bridge env); cbn; lia.
  - destruct (interval_running r); cbn; lia.
Qed.

(** Interval ticks and pointer events leave [appContext], [intent] and
    the interval alone. *)
Lemma step_quiet (fl : Q -> Q) (env : Env) (r r' : Renderer) (ev : Event) :
  is_quiet ev = true ->
  step fl env r ev = Normal r' ->
  appContext (hud r') = appContext (hud r) /\ intent (hud r') = intent (hud r) /\
  interval_running r' = interval_running r.
Proof.
  intros Hq. rewrite step_cases. intros H; injection H as <-.
  destruct ev; try discriminate; cbn.
  - destruct (host_bridge env); repeat split.
  - destruct (host_bridge env); repeat split.
  - destruct (interval_running r) eqn:Hr; cbn; rewrite ?Hr; repeat split.
Qed.

Lemma run_quiet (fl : Q -> Q) (env : Env) (evs : list Event) (r : Renderer) :
  forallb is_quiet evs = true ->
  exists r',
    run fl env r evs = Normal r' /\
    appContext (hud r') = appContext (hud r) /\ intent (hud r') = intent (hud r) /\
    interval_running r' = interval_running r.
Proof.
  revert r; induction evs as [|ev evs IH]; intros r H.
  - exists r. repeat split.
  - cbn [forallb] in H. apply andb_true_iff in H as [Hev Hevs].
    rewrite run_cons. destruct (step_normal fl env r ev) as [r1 E]. rewrite E.
    cbn [and_then]. destruct (IH r1 Hevs) as [r' [Hrun [Ha [Hi Hr]]]].
    destruct (step_quiet fl env r r1 ev Hev E) as [Ha1 [Hi1 Hr1]].
    exists r'. split; [exact Hrun|]. repeat split; congruence.
Qed.

(** A component that is neither mounted anew nor unmounted keeps its
    interval and its listeners. *)
Lemma run_stays_mounted (fl : Q -> Q) (env : Env) (evs : list Event) (r : Renderer) :
  forallb stays_mounted evs = true ->
  exists r',
    run fl env r evs = Normal r' /\
    interval_running r' = interval_running r /\ listeners r' = listeners r.
Proof.
  revert r; induction evs as [|ev evs IH]; intros r H.
  - exists r. repeat split.
  - cbn [forallb] in H. apply andb_true_iff in H as [Hev Hevs].
    rewrite run_cons, step_cases. cbn [and_then].
    destruct ev; try discriminate Hev;
      match goal with
      | |- exists r', run _ _ ?r1 _ = _ /\ _ =>
          destruct (IH r1 Hevs) as [r' [Hrun [Hr Hl]]]; exists r';
          split; [exact Hrun|]; rewrite Hr, Hl
      end; cbn.
    + split; reflexivity.
    + destruct (host_bridge env); split; reflexivity.
    + destruct (host_bridge env); split; reflexivity.
    + destruct (interval_running r) eqn:Hrun0; cbn; rewrite ?Hrun0; split; reflexivity.
Qed.

(** X3.  The display shows the last snapshot and nothing of the earlier
    ones.  In a host where the bridge is there, take any history of the
    component, then a mount, then any events that neither unmount nor
    mount it again, then a notification, then only interval ticks and
    pointer events: the component is still mounted, its [appContext] is
    the owner name of that notification (or ["Unknown"]) and its
    [intent] is the classification of that name. *)
Theorem last_snapshot_wins :
  forall (fl : Q -> Q) (env : Env) (history before after : list Event)
         (data : WindowChange),
    host_bridge env = true ->
    forallb stays_mounted before = true ->
    forallb is_quiet after = true ->
    exists r',
      run fl env first_render
        (history ++ Mount :: before ++ ActiveWindowChange data :: after) = Normal r' /\
      interval_running r' = true /\
      appContext (hud r') = or_default (owner data) "Unknown" /\
      intent (hud r') = classify (or_default (owner data) "Unknown").
Proof.
  intros fl env history before after data E Hbefore Hafter.
  rewrite run_app. destruct (run_normal fl env history first_render) as [r0 E0].
  rewrite E0. cbn [and_then]. rewrite run_cons, step_mount, E. cbn [and_then].
  rewrite run_app.
  destruct (run_stays_mounted fl env before
              (ipcRenderer_send (mkIpc "set-ignore-mouse-events" true)
                 (ipcRenderer_on (setInterval (new_instance r0)))) Hbefore)
    as [r1 [E1 [Hr1 Hl1]]].
  rewrite E1. cbn [and_then]. rewrite run_cons. cbn [step and_then].
  destruct (run_quiet fl env after
              (with_hud (Nat.iter (listeners r1) (on_active_window_change data)) r1) Hafter)
    as [r' [E' [Ha [Hi Hr]]]].
  exists r'. split; [exact E'|].
  rewrite Ha, Hi, Hr, Hl1. cbn [with_hud hud interval_running].
  split; [exact Hr1|].
  cbn [ipcRenderer_send ipcRenderer_on listeners]. rewrite iter_on_change.
  split; reflexivity.
Qed.

Lemma last_snapshot_wins_witness :
  exists r',
    run exact (mkEnv true true) first_render
      ([Mount; ActiveWindowChange (mkChange None (Some "Slack") None); Unmount]
       ++ Mount
       :: [ActiveWindowChange (mkChange None (Some "Notepad") None); IntervalFires (1 # 2)]
       ++ ActiveWindowChange (mkChange None (Some "Google Chrome") None)
       :: [IntervalFires (1 # 3); MouseEnter]) = Normal r' /\
    interval_running r' = true /\
    appContext (hud r') = "Google Chrome" /\
    intent (hud r') = Browsing_Research.
Proof.
  exact (last_snapshot_wins exact (mkEnv true true)
           [Mount; ActiveWindowChange (mkChange None (Some "Slack") None); Unmount]
           [ActiveWindowChange (mkChange None (Some "Notepad") None); IntervalFires (1 # 2)]
           [IntervalFires (1 # 3); MouseEnter]
           (mkChange None (Some "Google Chrome") None)
           eq_refl eq_refl eq_refl).
Defined.

(** A mount shows the initial cells again, whatever was shown before. *)
Lemma remount_starts_afresh (fl : Q -> Q) (env : Env) (r : Renderer) :
  exists r', step fl env r Mount = Normal r' /\ hud r' = initial_state.
Proof.
  rewrite step_mount. eexists. split; [reflexivity|].
  now destruct (host_bridge env).
Qed.

Lemma step_confidence (fl : Q -> Q) (env : Env) (r r' : Renderer) (ev : Event) :
  step fl env r ev = Normal r' ->
  confidence (hud r') = confidence (hud r) \/
  in_meter_range (confidence (hud r')) \/
  (ev = Mount /\ confidence (hud r') = 0).
Proof.
  rewrite step_cases. intros H; injection H as <-.
  destruct ev; cbn.
  - right; right. destruct (host_bridge env); split; reflexivity.
  - left. destruct (listeners r) as [|k]; [reflexivity|].
    now rewrite iter_on_change.
  - destruct (host_bridge env); now left.
  - destruct (host_bridge env); now left.
  - destruct (interval_running r); [right; left | now left].
    cbn. unfold next_confidence. apply clamp_bounds.
  - now left.
Qed.

(** X4.  Over any sequence of events the confidence meter stays where the
    clamp puts it.  A component whose confidence is within [[80,100]]
    keeps it there for as long as it is not mounted anew; and a component
    started from the first render, mounted and unmounted any number of
    times, shows either the initial 0 or a value within [[80,100]],
    never anything else. *)
Theorem confidence_stays_in_range :
  forall (fl : Q -> Q) (env : Env) (evs : list Event),
    (forall r,
        count_mounts evs = 0%nat ->
        in_meter_range (confidence (hud r)) ->
        exists r', run fl env r evs = Normal r' /\ in_meter_range (confidence (hud r'))) /\
    (exists r',
        run fl env first_render evs = Normal r' /\
        (confidence (hud r') = 0 \/ in_meter_range (confidence (hud r')))).
Proof.
  intros fl env evs. split.
  - induction evs as [|ev evs IH]; intros r Hm H.
    + exists r. split; [reflexivity | exact H].
    + assert (Hev : ev <> Mount) by (intros ->; discriminate).
      assert (Hevs : count_mounts evs = 0%nat) by (destruct ev; cbn in Hm; congruence).
      rewrite run_cons. destruct (step_normal fl env r ev) as [r1 E]. rewrite E.
      cbn [and_then]. apply (IH r1 Hevs).
      destruct (step_confidence fl env r r1 ev E) as [Hc | [R | [M _]]];
        [now rewrite Hc | exact R | contradiction].
  - apply (run_invariant fl env
             (fun r => confidence (hud r) = 0 \/ in_meter_range (confidence (hud r))));
      [|now left].
    intros r0 ev r1 HP Hs.
    destruct (step_confidence fl env r0 r1 ev Hs) as [Hc | [R | [_ Z]]];
      [now rewrite Hc | now right | now left].
Qed.

Lemma confidence_stays_in_range_witness :
  exists r',
    run exact (mkEnv true true) (mkRenderer (mkHud Idle "x" 90) 0 true [])
      [IntervalFires (99 # 100); IntervalFires 0; Unmount] = Normal r' /\
    in_meter_range (confidence (hud r')).
Proof.
  destruct (confidence_stays_in_range exact (mkEnv true true)
              [IntervalFires (99 # 100); IntervalFires 0; Unmount]) as [H _].
  apply (H (mkRenderer (mkHud Idle "x" 90) 0 true [])); [reflexivity|].
  split; discriminate.
Defined.

(** X5.  Unmounting stops the meter: after an unmount, and until the
    component is mounted again, no event changes the confidence and the
    interval stays cleared. *)
Theorem unmount_freezes_confidence :
  forall (fl : Q -> Q) (env : Env) (evs : list Event) (r : Renderer),
    count_mounts evs = 0%nat ->
    exists r',
      run fl env r (Unmount :: evs) = Normal r' /\
      confidence (hud r') = confidence (hud r) /\
      interval_running r' = false.
Proof.
  intros fl env evs r H. rewrite run_cons. cbn [step and_then].
  assert (G : forall r0 c, interval_running r0 = false -> confidence (hud r0) = c ->
              exists r', run fl env r0 evs = Normal r' /\
                         confidence (hud r') = c /\
                         interval_running r' = false).
  { clear r. induction evs as [|ev evs IH]; intros r0 c Hoff Hc.
    - exists r0. repeat split; assumption.
    - assert (Hevs : count_mounts evs = 0%nat) by (destruct ev; cbn in H; congruence).
      rewrite run_cons, step_cases. cbn [and_then].
      destruct ev; [discriminate H | | | | |]; apply (IH Hevs); try exact Hoff;
        try exact Hc; try reflexivity.
      + cbn. destruct (listeners r0) as [|k]; [exact Hc|].
        now rewrite iter_on_change.
      + destruct (host_bridge env); exact Hoff.
      + destruct (host_bridge env); exact Hc.
      + destruct (host_bridge env); exact Hoff.
      + destruct (host_bridge env); exact Hc.
      + now rewrite Hoff.
      + now rewrite Hoff. }
  apply (G (clearInterval r)); reflexivity.
Qed.

Lemma unmount_freezes_confidence_witness :
  exists r',
    run exact (mkEnv true true) (mkRenderer (mkHud Idle "x" 90) 1 true [])
      [Unmount; IntervalFires (9 # 10); MouseEnter; IntervalFires (1 # 10)] = Normal r' /\
    confidence (hud r') = 90 /\
    interval_running r' = false.
Proof.
  exact (unmount_freezes_confidence exact (mkEnv true true)
           [IntervalFires (9 # 10); MouseEnter; IntervalFires (1 # 10)]
           (mkRenderer (mkHud Idle "x" 90) 1 true []) eq_refl).
Defined.

(** X6.  Listeners are only ever added: with the bridge there, every
    mount registers one more listener on ['active-window-change'] and no
    event, unmount included, removes one; so after a sequence of events
    the component has as many more listeners as the sequence has mounts. *)
Theorem listeners_count_mounts :
  forall (fl : Q -> Q) (env : Env) (evs : list Event) (r : Renderer),
    host_bridge env = true ->
    exists r',
      run fl env r evs = Normal r' /\
      listeners r' = (listeners r + count_mounts evs)%nat.
Proof.
  intros fl env evs r E. revert r; induction evs as [|ev evs IH]; intros r.
  - exists r. split; [reflexivity | cbn; lia].
  - rewrite run_cons, step_cases, E. cbn [and_then].
    destruct ev; cbn [count_mounts];
      match goal with
      | |- exists r', run _ _ ?r1 _ = _ /\ _ =>
          destruct (IH r1) as [r' [Hrun Hl]]; exists r'; split; [exact Hrun|];
          rewrite Hl
      end; cbn; try lia.
    destruct (interval_running r); cbn; lia.
Qed.

Lemma listeners_count_mounts_witness :
  exists r',
    run exact (mkEnv true true) first_render [Mount; Unmount; Mount; Unmount; Mount]
    = Normal r' /\
    listeners r' = 3%nat.
Proof.
  exact (listeners_count_mounts exact (mkEnv true true)
           [Mount; Unmount; Mount; Unmount; Mount] first_render eq_refl).
Defined.

Lemma outbox_is_trace (fl : Q -> Q) (env : Env) (evs : list Event) (r : Renderer) :
  host_bridge env = true ->
  exists r',
    run fl env r evs = Normal r' /\
    outbox r' =
      (outbox r ++ map (mkIpc "set-ignore-mouse-events") (controls_of evs))%list.
Proof.
  intros E. revert r; induction evs as [|ev evs IH]; intros r.
  - exists r. split; [reflexivity | cbn; now rewrite app_nil_r].
  - rewrite run_cons, step_cases, E. cbn [and_then].
    destruct ev; cbn [controls_of map];
      match goal with
      | |- exists r', run _ _ ?r1 _ = _ /\ _ =>
          destruct (IH r1) as [r' [Hrun Ho]]; exists r'; split; [exact Hrun|];
          rewrite Ho
      end; cbn; rewrite <- ?app_assoc; try reflexivity.
    destruct (interval_running r); reflexivity.
Qed.

(** X7.  What the component sends is exactly the trace of its mounts and
    pointer events: with the bridge there, after a sequence of events
    the outbox is the old outbox followed by one message on channel
    ['set-ignore-mouse-events'] for every mount ([true]), pointer-enter
    ([false]) and pointer-leave ([true]), in the order of the events, and
    by nothing else. *)
Theorem outbox_is_trace_of_controls :
  forall (fl : Q -> Q) (env : Env) (evs : list Event) (r : Renderer),
    host_bridge env = true ->
    exists r',
      run fl env r evs = Normal r' /\
      outbox r' =
        (outbox r ++ map (mkIpc "set-ignore-mouse-events") (controls_of evs))%list.
Proof.
  intros fl env evs r E. now apply outbox_is_trace.
Qed.

Lemma outbox_is_trace_of_controls_witness :
  exists r',
    run exact (mkEnv true true) first_render
      [Mount; MouseEnter; IntervalFires (1 # 2); MouseLeave] = Normal r' /\
    outbox r' = [mkIpc "set-ignore-mouse-events" true;
                 mkIpc "set-ignore-mouse-events" false;
                 mkIpc "set-ignore-mouse-events" true].
Proof.
  exact (outbox_is_trace_of_controls exact (mkEnv true true)
           [Mount; MouseEnter; IntervalFires (1 # 2); MouseLeave] first_render eq_refl).
Defined.

(** ** The hit-test mode *)

Lemma requested_cons (m : IpcMessage) (ms : list IpcMessage) :
  requested (m :: ms) =
  if String.eqb (channel m) "set-ignore-mouse-events"
  then ignore_arg m :: requested ms else requested ms.
Proof.
  unfold requested. cbn [filter].
  now destruct (String.eqb (channel m) "set-ignore-mouse-events").
Qed.

Lemma requested_controls (bs : list bool) :
  requested (map (mkIpc "set-ignore-mouse-events") bs) = bs.
Proof.
  induction bs as [|b bs IH]; [reflexivity|].
  cbn [map]. rewrite requested_cons. cbn. now rewrite IH.
Qed.

(** X8.  With a window open the main process handles any sequence of
    messages without throwing and keeps the window open; messages on
    other channels change nothing; the window ends in the mode of the
    last message on channel ['set-ignore-mouse-events'], with forwarding
    on, and as it was if there was no such message. *)
Theorem receive_all_last_request :
  forall (ms : list IpcMessage) (w : BrowserWindow),
    receive_all ms (Some w) =
    Normal (Some match rev (requested ms) with
                 | [] => w
                 | b :: _ => {| ignoreMouseEvents := b; forward := true |}
                 end).
Proof.
  induction ms as [|m ms IH]; intros w; [reflexivity|].
  cbn [receive_all]. rewrite requested_cons. unfold on_ipc_message.
  destruct (String.eqb (channel m) "set-ignore-mouse-events"); cbn [and_then].
  - rewrite IH. cbn [rev]. destruct (rev (requested ms)); reflexivity.
  - apply IH.
Qed.

(** With no window, the first message on the channel throws. *)
Lemma receive_all_no_window (ignore : bool) (ms : list IpcMessage) :
  exists error,
    receive_all (mkIpc "set-ignore-mouse-events" ignore :: ms) None = Throw error.
Proof. eexists. reflexivity. Qed.

(** X9.  The display layer and the main process together track the
    pointer: with the bridge there, after any sequence of events of a
    component started from the first render, a main process that has
    handled every message the component sent has its window in the mode
    asked for by the last mount, pointer-enter or pointer-leave: capturing
    after a pointer-enter, click-through with forwarding after a mount or
    a pointer-leave, and untouched if there was none of them. *)
Theorem window_mode_follows_pointer :
  forall (fl : Q -> Q) (env : Env) (evs : list Event) (w : BrowserWindow),
    host_bridge env = true ->
    exists r',
      run fl env first_render evs = Normal r' /\
      receive_all (outbox r') (Some w) =
      Normal (Some match rev (controls_of evs) with
                   | [] => w
                   | b :: _ => {| ignoreMouseEvents := b; forward := true |}
                   end).
Proof.
  intros fl env evs w E.
  destruct (outbox_is_trace fl env evs first_render E) as [r' [Hrun Ho]].
  exists r'. split; [exact Hrun|].
  rewrite receive_all_last_request, Ho.
  change (outbox first_render) with (@nil IpcMessage). rewrite app_nil_l.
  now rewrite requested_controls.
Qed.

Lemma window_mode_follows_pointer_witness :
  exists r',
    run exact (mkEnv true true) first_render
      [Mount; MouseEnter; MouseLeave; IntervalFires (1 # 2); MouseEnter;
       ActiveWindowChange (mkChange None (Some "Slack") None)] = Normal r' /\
    receive_all (outbox r') (Some created_window) =
    Normal (Some {| ignoreMouseEvents := false; forward := true |}).
Proof.
  exact (window_mode_follows_pointer exact (mkEnv true true)
           [Mount; MouseEnter; MouseLeave; IntervalFires (1 # 2); MouseEnter;
            ActiveWindowChange (mkChange None (Some "Slack") None)]
           created_window eq_refl).
Defined.

(** ** [safeConsoleCall] *)

(** X10.  [safeConsoleCall] contains whatever the console function throws,
    as long as the thrown value is not [null] or [undefined]: the call
    ends normally whether or not writing to [process.stderr] works,
    writes at most one line there, and writes none when the error code
    is ["EPIPE"] or when the write itself throws; the line it writes
    carries the message of the error.  A thrown [null] or [undefined] is
    not contained: reading its [code] throws out of the handler. *)
Theorem safeConsoleCall_contains_errors :
  (forall stderr_write, safeConsoleCall Returned stderr_write = Normal []) /\
  (forall code message stderr_write, exists lines,
      safeConsoleCall (Threw (Value code message)) stderr_write = Normal lines /\
      (List.length lines <= 1)%nat) /\
  (forall message stderr_write,
      safeConsoleCall (Threw (Value (Some "EPIPE") message)) stderr_write = Normal []) /\
  (forall code message t,
      safeConsoleCall (Threw (Value code message)) (Threw t) = Normal []) /\
  (forall code message,
      safeConsoleCall (Threw (Value code message)) Returned =
      Normal (if is_EPIPE code then []
              else ["Console error: " ++ template message ++ newline])) /\
  (forall stderr_write, exists error,
      safeConsoleCall (Threw Nullish) stderr_write = Throw error).
Proof.
  split; [reflexivity|].
  split.
  { intros code message w. unfold safeConsoleCall.
    destruct (is_EPIPE code); [eexists; split; [reflexivity | cbn; lia]|].
    destruct w; eexists; (split; [reflexivity | cbn; lia]). }
  split; [reflexivity|].
  split.
  { intros code message t. unfold safeConsoleCall. now destruct (is_EPIPE code). }
  split.
  { intros code message. unfold safeConsoleCall. now destruct (is_EPIPE code). }
  intros w. eexists. reflexivity.
Qed.

(** ** More on the poll tick *)

(** X11.  A poll tick only ever adds to what the main process has sent and
    logged, and it adds at most one thing: one notification, or one line
    on the console, or nothing. *)
Theorem poll_tick_adds_at_most_one :
  forall (h h' : Host) (q : QueryOutcome) (e0 : Effects),
    exists ns ls,
      snd (poll_tick h q h' e0) =
        {| notifications := notifications e0 ++ ns; console := console e0 ++ ls |} /\
      (List.length ns + List.length ls <= 1)%nat.
Proof.
  intros h h' q [n0 c0]. unfold poll_tick.
  destruct (mainWindow h) as [w|];
    [|exists [], []; cbn; rewrite !app_nil_r; split; [reflexivity | lia]].
  destruct (activeWin_loaded h);
    [|exists [], []; cbn; rewrite !app_nil_r; split; [reflexivity | lia]].
  destruct q as [[res|]|error].
  - unfold try_catch, bind, await_activeWin, ret, webContents_send.
    destruct (mainWindow h') as [w'|]; cbn.
    + eexists [_], []. rewrite app_nil_r. split; [reflexivity | cbn; lia].
    + eexists [], [_]. rewrite app_nil_r. split; [reflexivity | cbn; lia].
  - exists [], []. cbn. rewrite !app_nil_r. split; [reflexivity | lia].
  - eexists [], [_]. cbn. rewrite app_nil_r. split; [reflexivity | cbn; lia].
Qed.

(** X13.  A window closed while the query is awaited does not crash the
    poller: the send on the [null] window throws a [TypeError], the
    [catch] of the tick logs it, the tick ends normally, and no
    notification is sent although the query had a result. *)
Theorem poll_tick_survives_closed_window :
  forall (w : BrowserWindow) (loaded' : bool) (res : WinResult) (e0 : Effects),
    poll_tick (mkHost (Some w) true) (Resolved (Some res)) (mkHost None loaded') e0
    = (Normal tt,
       {| notifications := notifications e0;
          console := console e0 ++
            ["[Window Poller Error]: TypeError: Cannot read properties of null (reading 'webContents')"] |}).
Proof. reflexivity. Qed.

(** X14.  From the query to the screen: when a tick with the window open
    and the module loaded gets a result, and its notification reaches a
    component with at least one listener, the component shows the owner's
    process name as [appContext] (["Unknown"] if that name is empty) and
    the classification of that name as [intent]; the window title and
    the path play no part, and confidence and outbox are untouched. *)
Theorem tick_result_reaches_display :
  forall (fl : Q -> Q) (env : Env) (w w' : BrowserWindow) (loaded' : bool)
         (res : WinResult) (st : HudState) (n : nat) (running : bool)
         (sent : list IpcMessage),
    exists r',
      deliver fl env
        (notifications
           (snd (poll_tick (mkHost (Some w) true) (Resolved (Some res))
                           (mkHost (Some w') loaded') no_effects)))
        {| hud := st; listeners := S n; interval_running := running; outbox := sent |}
      = Normal r' /\
      appContext (hud r') = or_default (Some (name (result_owner res))) "Unknown" /\
      intent (hud r') = classify (or_default (Some (name (result_owner res))) "Unknown") /\
      confidence (hud r') = confidence st /\
      outbox r' = sent.
Proof.
  intros. eexists. split; [reflexivity|].
  cbn [with_hud hud listeners outbox]. rewrite iter_on_change.
  repeat split.
Qed.

(** ** The application *)

Lemma app_run_cons (p : Process) (a : App) (ev : AppEvent) (evs : list AppEvent) :
  app_run p a (ev :: evs) = and_then (app_step p a ev) (fun a' => app_run p a' evs).
Proof. reflexivity. Qed.

(** An invariant of single events is an invariant of the sequences that
    end normally. *)
Lemma app_run_invariant (p : Process) (P : App -> Prop) :
  (forall a ev a', P a -> app_step p a ev = Normal a' -> P a') ->
  forall evs a a', P a -> app_run p a evs = Normal a' -> P a'.
Proof.
  intros Hstep evs; induction evs as [|ev evs IH]; intros a a' HP H.
  - injection H as <-. exact HP.
  - rewrite app_run_cons in H. destruct (app_step p a ev) as [a1|error] eqn:E;
      [|discriminate]. cbn [and_then] in H. exact (IH a1 a' (Hstep a ev a1 HP E) H).
Qed.

(** The message handler, on an application with a window or without. *)
Lemma app_step_ipc (p : Process) (a a' : App) (m : IpcMessage) :
  app_step p a (IpcFromWindow m) = Normal a' ->
  a' = a \/ exists w, a' = set_mainWindow (MwOpen w) a.
Proof.
  cbn [app_step]. unfold on_ipc_message.
  destruct (String.eqb (channel m) "set-ignore-mouse-events").
  - destruct (window_of (mainWindowVar a)); cbn [and_then]; [|discriminate].
    intros H; injection H as <-. right. eauto.
  - cbn [and_then]. destruct (window_of (mainWindowVar a)); intros H; injection H as <-.
    + right. eauto.
    + now left.
Qed.

Lemma nth_snoc_false (i : nat) (ps : list bool) :
  nth i (ps ++ [false]) false = nth i ps false.
Proof.
  destruct (Nat.lt_ge_cases i (List.length ps)) as [H | H].
  - now apply app_nth1.
  - rewrite app_nth2 by exact H. rewrite (nth_overflow ps) by exact H.
    destruct (i - List.length ps)%nat as [|[|k]]; reflexivity.
Qed.

Lemma nth_assign_other (i j : nat) (ps : list bool) :
  j <> i -> nth i (assign_activeWin j ps) false = nth i ps false.
Proof.
  revert i j; induction ps as [|b ps IH]; intros i j H; [now destruct j|].
  destruct j as [|j], i as [|i]; cbn; try reflexivity; try congruence.
  apply IH. congruence.
Qed.

Lemma assign_activeWin_length (j : nat) (ps : list bool) :
  List.length (assign_activeWin j ps) = List.length ps.
Proof.
  revert j; induction ps as [|b ps IH]; intros j; [now destruct j|].
  destruct j; cbn; [reflexivity | now rewrite IH].
Qed.

(** X12.  A poller whose [active-win] import has not succeeded never does
    anything: as long as no event reports that import as done, whatever
    else happens to the application (windows created and closed,
    messages, other imports, a failed import), a tick of that poller makes
    no query, sends nothing and logs nothing. *)
Theorem unloaded_poller_stays_idle :
  forall (p : Process) (i : nat) (evs : list AppEvent) (a a' : App),
    nth i (pollers a) false = false ->
    forallb (fun ev => match ev with
                       | ActiveWinImported j => negb (Nat.eqb j i)
                       | _ => true
                       end) evs = true ->
    app_run p a evs = Normal a' ->
    forall (q : QueryOutcome) (h' : Host) (e0 : Effects),
      poll_tick (host_at a' i) q h' e0 = (Normal tt, e0).
Proof.
  intros p i evs. induction evs as [|ev evs IH]; intros a a' Hi Hevs Hrun q h' e0.
  - injection Hrun as <-. apply poll_tick_idle. right. exact Hi.
  - cbn [forallb] in Hevs. apply andb_true_iff in Hevs as [Hev Hevs].
    rewrite app_run_cons in Hrun.
    destruct (app_step p a ev) as [a1|error] eqn:E; [|discriminate].
    cbn [and_then] in Hrun. apply (IH a1 a'); [|exact Hevs | exact Hrun].
    destruct ev; cbn [app_step] in E.
    + injection E as <-. cbn. now rewrite nth_snoc_false.
    + destruct (mainWindowVar a); injection E as <-; try exact Hi.
      cbn. now rewrite nth_snoc_false.
    + destruct (String.eqb (platform p) "darwin"); injection E as <-; exact Hi.
    + injection E as <-. exact Hi.
    + destruct (app_step_ipc p a a1 m E) as [-> | [w ->]]; exact Hi.
    + injection E as <-. exact Hi.
    + injection E as <-. cbn. rewrite nth_assign_other; [exact Hi|].
      apply negb_true_iff, Nat.eqb_neq in Hev. exact Hev.
    + injection E as <-. exact Hi.
Qed.

Lemma unloaded_poller_stays_idle_witness :
  poll_tick
    (host_at
       (set_mainWindow (MwOpen created_window)
          {| mainWindowVar := MwOpen created_window; serve := false;
             pollers := [false; true]; content := Some (DevServer "http://localhost:3000");
             devtools := true;
             app_console := ["Failed to load active-win: denied"];
             quit_called := false |}) 0)
    (Resolved (Some (mkResult "t" (mkOwner "Slack" "/slack"))))
    (mkHost (Some created_window) false) no_effects
  = (Normal tt, no_effects).
Proof.
  apply (unloaded_poller_stays_idle
           (mkProcess false None "darwin") 0
           [Ready; ActiveWinImportFailed 0 "denied"; ActiveWinImported 1;
            IpcFromWindow (mkIpc "set-ignore-mouse-events" true)]
           {| mainWindowVar := MwNull; serve := false; pollers := [false];
              content := None; devtools := false; app_console := [];
              quit_called := false |});
    reflexivity.
Defined.

Lemma app_step_pollers_grow (p : Process) (a a' : App) (ev : AppEvent) :
  app_step p a ev = Normal a' ->
  (List.length (pollers a) <= List.length (pollers a'))%nat.
Proof.
  intros E. destruct ev; cbn [app_step] in E.
  - injection E as <-. cbn. rewrite length_app. cbn. lia.
  - destruct (mainWindowVar a); injection E as <-; cbn; rewrite ?length_app; cbn; lia.
  - destruct (String.eqb (platform p) "darwin"); injection E as <-; cbn; lia.
  - injection E as <-. cbn. lia.
  - destruct (app_step_ipc p a a' m E) as [-> | [w ->]]; cbn; lia.
  - injection E as <-. cbn. lia.
  - injection E as <-. cbn. rewrite assign_activeWin_length. lia.
  - injection E as <-. cbn. lia.
Qed.

Lemma app_run_app (p : Process) (evs evs' : list AppEvent) (a : App) :
  app_run p a (evs ++ evs') =
  and_then (app_run p a evs) (fun a' => app_run p a' evs').
Proof.
  revert a; induction evs as [|ev evs IH]; intros a; [reflexivity|].
  rewrite <- app_comm_cons, !app_run_cons.
  destruct (app_step p a ev) as [a1|error]; cbn [and_then]; [apply IH | reflexivity].
Qed.

(** X15.  The poll intervals are never cleared.  No event makes the
    number of pollers smaller; and after ['ready'] followed by [k] rounds
    of closing the window and activating the application, a window is
    open and [k + 1] intervals are running, each of which polls for that
    one window. *)
Theorem pollers_accumulate :
  forall (p : Process),
    (forall evs a a',
        app_run p a evs = Normal a' ->
        (List.length (pollers a) <= List.length (pollers a'))%nat) /\
    (forall k, exists a',
        app_run p app_start (Ready :: List.concat (repeat [Closed; Activate] k)) = Normal a' /\
        mainWindowVar a' = MwOpen created_window /\
        List.length (pollers a') = S k).
Proof.
  intros p. split.
  - intros evs. induction evs as [|ev evs IH]; intros a a' H.
    + injection H as <-. lia.
    + rewrite app_run_cons in H. destruct (app_step p a ev) as [a1|error] eqn:E;
        [|discriminate]. cbn [and_then] in H.
      pose proof (app_step_pollers_grow p a a1 ev E). pose proof (IH a1 a' H). lia.
  - intros k. rewrite app_run_cons. cbn [app_step and_then].
    assert (G : forall a, exists a',
                 app_run p (createWindow p a) (List.concat (repeat [Closed; Activate] k))
                 = Normal a' /\
                 mainWindowVar a' = MwOpen created_window /\
                 List.length (pollers a') = (S (List.length (pollers a)) + k)%nat).
    { induction k as [|k IH]; intros a.
      - eexists. split; [reflexivity|]. split; [reflexivity|].
        cbn. rewrite length_app. cbn. lia.
      - cbn [repeat List.concat].
        change ([Closed; Activate] ++ List.concat (repeat [Closed; Activate] k))%list
          with (Closed :: Activate :: List.concat (repeat [Closed; Activate] k)).
        rewrite !app_run_cons. cbn [app_step and_then].
        cbn [set_mainWindow mainWindowVar].
        destruct (IH (set_mainWindow MwNull (createWindow p a))) as [a' [Hrun [Hw Hl]]].
        exists a'. split; [exact Hrun|]. split; [exact Hw|].
        rewrite Hl. cbn. rewrite length_app. cbn. lia. }
    destruct (G app_start) as [a' [Hrun [Hw Hl]]].
    exists a'. split; [exact Hrun|]. split; [exact Hw|]. rewrite Hl. cbn. lia.
Qed.

Lemma pollers_accumulate_witness :
  (List.length (pollers app_start)
   <= List.length (pollers (set_mainWindow MwNull
                              (createWindow (mkProcess true None "win32") app_start))))%nat.
Proof.
  destruct (pollers_accumulate (mkProcess true None "win32")) as [H _].
  apply (H [Ready; Closed] app_start). reflexivity.
Defined.

(** X16.  ['activate'] creates a window only after one has been closed:
    before ['ready'], when [mainWindow] is still [undefined] and not
    [null], any number of activations leaves the application as it
    started; and with the window of ['ready'] open, any number of
    activations leaves that one window and its one poller. *)
Theorem activate_only_recreates :
  forall (p : Process) (k : nat),
    app_run p app_start (repeat Activate k) = Normal app_start /\
    app_run p app_start (Ready :: repeat Activate k) = Normal (createWindow p app_start).
Proof.
  intros p k. split.
  - induction k as [|k IH]; [reflexivity|]. cbn [repeat]. rewrite app_run_cons. exact IH.
  - rewrite app_run_cons. cbn [app_step and_then].
    induction k as [|k IH]; [reflexivity|]. cbn [repeat]. rewrite app_run_cons. exact IH.
Qed.

(** X17.  In a packaged application the content is chosen once, when the
    window is created.  If ['ready'] arrives before the import of
    [electron-serve] has finished, the window is told to load nothing and
    an error line is logged, and nothing that follows short of a new
    window changes that, the end of the import included.  If the import
    finished first, the window loads the static export [out]. *)
Theorem packaged_window_loads_only_at_creation :
  forall (p : Process),
    isPackaged p = true ->
    (forall evs,
        forallb (fun ev => match ev with
                           | Ready | Closed => false
                           | _ => true
                           end) evs = true ->
        exists a',
          app_run p app_start (Ready :: evs) = Normal a' /\
          content a' = None /\
          In "Electron-serve not loaded yet" (app_console a')) /\
    (exists a',
        app_run p app_start [ServeImported; Ready] = Normal a' /\
        content a' = Some (StaticExport "out") /\
        app_console a' = []).
Proof.
  intros p Hp. split.
  - intros evs Hevs. rewrite app_run_cons. cbn [app_step and_then].
    assert (G : forall a,
               (exists w, mainWindowVar a = MwOpen w) ->
               content a = None ->
               In "Electron-serve not loaded yet" (app_console a) ->
               exists a', app_run p a evs = Normal a' /\
                          content a' = None /\
                          In "Electron-serve not loaded yet" (app_console a')).
    { induction evs as [|ev evs IH]; intros a Hw Hc Hl.
      - exists a. repeat split; assumption.
      - cbn [forallb] in Hevs. apply andb_true_iff in Hevs as [Hev Hevs].
        rewrite app_run_cons. destruct Hw as [w Hw].
        destruct ev; try discriminate Hev; cbn [app_step].
        + rewrite Hw. cbn [and_then]. apply (IH Hevs); eauto.
        + destruct (String.eqb (platform p) "darwin"); cbn [and_then];
            apply (IH Hevs); eauto.
        + rewrite Hw. cbn [window_of]. unfold on_ipc_message.
          destruct (String.eqb (channel m) "set-ignore-mouse-events"); cbn [and_then];
            apply (IH Hevs); cbn; eauto.
        + cbn [and_then]. apply (IH Hevs); eauto.
        + cbn [and_then]. apply (IH Hevs); eauto.
        + cbn [and_then]. apply (IH Hevs); cbn; eauto.
          apply in_or_app. now left. }
    apply G.
    + eexists. reflexivity.
    + cbn. now rewrite Hp.
    + cbn. rewrite Hp. cbn. now left.
  - eexists. split; [reflexivity|]. cbn. rewrite Hp. cbn. split; reflexivity.
Qed.

Lemma packaged_window_loads_only_at_creation_witness :
  exists a',
    app_run (mkProcess true None "win32") app_start
      [Ready; ServeImported; ActiveWinImported 0;
       IpcFromWindow (mkIpc "set-ignore-mouse-events" false); Activate] = Normal a' /\
    content a' = None /\
    In "Electron-serve not loaded yet" (app_console a').
Proof.
  destruct (packaged_window_loads_only_at_creation (mkProcess true None "win32") eq_refl)
    as [H _].
  exact (H [ServeImported; ActiveWinImported 0;
            IpcFromWindow (mkIpc "set-ignore-mouse-events" false); Activate] eq_refl).
Defined.

Lemma app_step_quit (p : Process) (a a' : App) (ev : AppEvent) :
  app_step p a ev = Normal a' ->
  quit_called a' =
  quit_called a ||
  (negb (String.eqb (platform p) "darwin") &&
   match ev with WindowAllClosed => true | _ => false end).
Proof.
  intros E. destruct ev; cbn [app_step] in E.
  - injection E as <-. cbn. now rewrite andb_false_r, orb_false_r.
  - rewrite andb_false_r, orb_false_r.
    destruct (mainWindowVar a); injection E as <-; reflexivity.
  - destruct (String.eqb (platform p) "darwin"); injection E as <-; cbn.
    + now rewrite orb_false_r.
    + now rewrite orb_true_r.
  - injection E as <-. cbn. now rewrite andb_false_r, orb_false_r.
  - rewrite andb_false_r, orb_false_r.
    destruct (app_step_ipc p a a' m E) as [-> | [w ->]]; reflexivity.
  - injection E as <-. cbn. now rewrite andb_false_r, orb_false_r.
  - injection E as <-. cbn. now rewrite andb_false_r, orb_false_r.
  - injection E as <-. cbn. now rewrite andb_false_r, orb_false_r.
Qed.

(** X18.  [app.quit()] is called for one reason only: after a sequence of
    events it has been called exactly if it had been called before, or
    the platform is not ["darwin"] and the sequence has a
    ['window-all-closed'].  On ["darwin"] the application never quits by
    itself. *)
Theorem quit_only_on_window_all_closed :
  forall (p : Process) (evs : list AppEvent) (a a' : App),
    app_run p a evs = Normal a' ->
    quit_called a' =
    quit_called a ||
    (negb (String.eqb (platform p) "darwin") &&
     existsb (fun ev => match ev with WindowAllClosed => true | _ => false end) evs).
Proof.
  intros p evs. induction evs as [|ev evs IH]; intros a a' H.
  - injection H as <-. cbn. now rewrite andb_false_r, orb_false_r.
  - rewrite app_run_cons in H. destruct (app_step p a ev) as [a1|error] eqn:E;
      [|discriminate]. cbn [and_then] in H.
    rewrite (IH a1 a' H), (app_step_quit p a a1 ev E). cbn [existsb].
    destruct (quit_called a), (String.eqb (platform p) "darwin"),
      (existsb (fun ev0 => match ev0 with WindowAllClosed => true | _ => false end) evs),
      ev; reflexivity.
Qed.

Lemma quit_only_on_window_all_closed_witness :
  quit_called
    {| mainWindowVar := MwNull; serve := false; pollers := [false];
       content := Some (DevServer "http://localhost:3000"); devtools := true;
       app_console := []; quit_called := true |}
  = true.
Proof.
  exact (quit_only_on_window_all_closed (mkProcess false None "linux")
           [Ready; Closed; WindowAllClosed] app_start _ eq_refl).
Defined.

(** ** Outside the host *)

(** X19.  Without the bridge the display is static: a component started
    from the first render never registers a listener, so whatever events
    follow, notifications included, it keeps showing ["Detecting..."] and
    ["Idle"], and it sends nothing; only the confidence meter moves. *)
Theorem display_static_without_bridge :
  forall (fl : Q -> Q) (env : Env) (evs : list Event),
    host_bridge env = false ->
    exists r',
      run fl env first_render evs = Normal r' /\
      appContext (hud r') = "Detecting..." /\
      intent (hud r') = Idle /\
      listeners r' = 0%nat /\
      outbox r' = [].
Proof.
  intros fl env evs E.
  destruct (run_invariant fl env
              (fun r => appContext (hud r) = "Detecting..." /\ intent (hud r) = Idle /\
                        listeners r = 0%nat /\ outbox r = []))
    with (evs := evs) (r := first_render) as [r' [Hrun H]].
  - intros r ev r1 [Ha [Hi [Hl Ho]]]. rewrite step_cases, E.
    intros H; injection H as <-.
    destruct ev; cbn; try (repeat split; assumption).
    + rewrite Hl. cbn. repeat split; assumption.
    + destruct (interval_running r); cbn; repeat split; assumption.
  - repeat split.
  - exists r'. split; [exact Hrun | exact H].
Qed.

Lemma display_static_without_bridge_witness :
  exists r',
    run exact (mkEnv true false) first_render
      [Mount; ActiveWindowChange (mkChange None (Some "Slack") None);
       MouseEnter; IntervalFires (1 # 2)] = Normal r' /\
    appContext (hud r') = "Detecting..." /\
    intent (hud r') = Idle /\
    listeners r' = 0%nat /\
    outbox r' = [].
Proof.
  exact (display_static_without_bridge exact (mkEnv true false)
           [Mount; ActiveWindowChange (mkChange None (Some "Slack") None);
            MouseEnter; IntervalFires (1 # 2)] eq_refl).
Defined.
